(** * Bootstrap-4 container, row and column plugins of djangocms-cascade

    A shallow embedding of [cmsplugin_cascade/bootstrap4/container.py] and the
    properties its specification states about it.

    Conventions of the embedding:
    - a Python [dict] with string keys (the "glossary") is a [gmap string gval];
    - a Python exception is a value of [exn], and code that may raise returns
      a [result];
    - Python integers are [Z], [//] is [Z.div] (both round towards minus
      infinity) with the division by zero written out;
    - the translation function [_] is the identity on its message id (no
      catalogue is active), and [force_text] is the identity on strings;
    - what the hosting framework provides (breakpoint labels and ranges, the
      bounds tables of the settings, the plural rule of the catalogue, HTML
      escaping, the base class' identifier, the further attributes of the
      class [Breakpoint]) is a field of the class [Host]. *)

From stdpp Require Import gmap strings list fin_maps pretty.
From Stdlib Require Import Ascii ZArith Permutation Lia.


(** ** Exceptions and fallible computations *)

Inductive exn : Type :=
  | ValidationError (msg : string)
  | ImproperlyConfigured (msg : string)
  | AttributeError
  | KeyError (key : string)
  | IndexError
  | ValueError
  | TypeError
  | ZeroDivisionError
  | UnboundLocalError.

(** The outcome of a computation: a value, an exception, or [Beyond]: the
    run goes on with a value whose treatment is decided by code that is not
    among the sources, and the embedding follows it no further. *)
Inductive result (A : Type) : Type :=
  | Ok (a : A)
  | Raise (e : exn)
  | Beyond (what : string).
Arguments Ok {A} a.
Arguments Raise {A} e.
Arguments Beyond {A} what.

Definition bind {A B} (r : result A) (k : A -> result B) : result B :=
  match r with
  | Ok a => k a
  | Raise e => Raise e
  | Beyond what => Beyond what
  end.

Notation "'let*' x ':=' r 'in' k" := (bind r (fun x => k))
  (at level 10, x pattern, r at level 100, k at level 200).

(** [for x in l: acc = body(acc, x)], stopping at the first exception. *)
Fixpoint for_each {A S} (body : S -> A -> result S) (l : list A) (acc : S) : result S :=
  match l with
  | [] => Ok acc
  | x :: l' => let* acc' := body acc x in for_each body l' acc'
  end.

(** ** Python strings and lists *)

Module Py.

(** [sep.join(l)] *)
Fixpoint join (sep : string) (l : list string) : string :=
  match l with
  | [] => ""
  | [s] => s
  | s :: l' => s +:+ sep +:+ join sep l'
  end.

(** [s.startswith(p)] *)
Fixpoint startswith (p s : string) : bool :=
  match p, s with
  | EmptyString, _ => true
  | String a p', String b s' => if decide (a = b) then startswith p' s' else false
  | String _ _, EmptyString => false
  end.

(** The scan of [str.replace] for a non-empty [old]: [skip] counts the
    characters of a match that are still to be dropped. *)
Fixpoint replace_scan (old new : string) (skip : nat) (s : string) : string :=
  match s with
  | EmptyString => ""
  | String c s' =>
      match skip with
      | S k => replace_scan old new k s'
      | O =>
          if startswith old s
          then new +:+ replace_scan old new (String.length old - 1) s'
          else String c (replace_scan old new 0 s')
      end
  end.

(** With an empty [old], [str.replace] puts [new] before every character
    and at the end. *)
Fixpoint replace_empty (new s : string) : string :=
  match s with
  | EmptyString => new
  | String c s' => new +:+ String c (replace_empty new s')
  end.

(** [s.replace(old, new)]: every non-overlapping occurrence, left to right. *)
Definition replace (old new s : string) : string :=
  match old with
  | EmptyString => replace_empty new s
  | String _ _ => replace_scan old new 0 s
  end.

(** [l.index(x)]: position of the first occurrence, [ValueError] without one. *)
Fixpoint index (x : string) (l : list string) : result nat :=
  match l with
  | [] => Raise ValueError
  | y :: l' => if decide (x = y) then Ok 0 else let* i := index x l' in Ok (S i)
  end.

(** The argument a replacement field selects: [{}] and [{:spec}] take the
    next one, [{n}] the one at position [n] (one digit is all the
    templates of this module use). *)
Definition field_index (auto : nat) (field : string) : nat :=
  match field with
  | String c _ =>
      if decide (c = ":"%char) then auto
      else Nat.sub (nat_of_ascii c) (nat_of_ascii "0"%char)
  | EmptyString => auto
  end.

(** The scan of [str.format]: [field] holds the text read since an open
    brace. Arguments arrive as text; a format specification is applied
    by the caller. *)
Fixpoint format_scan (args : list string) (auto : nat) (field : option string)
    (t : string) : string :=
  match t with
  | EmptyString => ""
  | String c t' =>
      match field with
      | None =>
          if decide (c = "{"%char) then format_scan args auto (Some "") t'
          else String c (format_scan args auto None t')
      | Some f =>
          if decide (c = "}"%char)
          then nth (field_index auto f) args "" +:+
               format_scan args (match f with
                                 | EmptyString => S auto
                                 | String d _ => if decide (d = ":"%char) then S auto else auto
                                 end) None t'
          else format_scan args auto (Some (f +:+ String c "")) t'
      end
  end.

(** [t.format] applied to the arguments [args] *)
Definition format (t : string) (args : list string) : string :=
  format_scan args 0 None t.

(** [range(a, b)] *)
Definition range (a b : nat) : list Z := Z.of_nat <$> seq a (b - a).

(** [str(i)] of an integer *)
Definition str (i : Z) : string := pretty i.

(** The characters of a string, as Python iterates over it. *)
Fixpoint chars (s : string) : list string :=
  match s with
  | EmptyString => []
  | String c s' => String c "" :: chars s'
  end.

End Py.

(** ** The glossary *)

(** The values a glossary holds in this module: strings (the CSS choices),
    the fluid flag and the list of selected breakpoint names. *)
Inductive gval : Type :=
  | VStr (s : string)
  | VBool (b : bool)
  | VList (l : list string).

(** Truth value of [v] in a condition. *)
Definition truthy (v : gval) : bool :=
  match v with
  | VStr s => if decide (s = "") then false else true
  | VBool b => b
  | VList l => match l with [] => false | _ => true end
  end.

(** Truth value of [d.get(k)], which is [None] (false) for a missing key. *)
Definition truthy_get (g : gmap string gval) (k : string) : bool :=
  match g !! k with
  | Some v => truthy v
  | None => false
  end.

(** [d[k]] *)
Definition getitem (g : gmap string gval) (k : string) : result gval :=
  match g !! k with
  | Some v => Ok v
  | None => Raise (KeyError k)
  end.

(** [len(v)] *)
Definition len (v : gval) : result nat :=
  match v with
  | VStr s => Ok (String.length s)
  | VList l => Ok (length l)
  | VBool _ => Raise TypeError
  end.

(** The elements [for x in v] runs over. *)
Definition iter (v : gval) : result (list string) :=
  match v with
  | VStr s => Ok (Py.chars s)
  | VList l => Ok l
  | VBool _ => Raise TypeError
  end.

(** [v[0]] *)
Definition first_item (v : gval) : result string :=
  let* l := iter v in
  match l with
  | x :: _ => Ok x
  | [] => Raise IndexError
  end.

(** ** Breakpoints and settings *)

(** Modelled from the spec: the enumeration [Breakpoint] of [grid.py], which
    is not among the sources. The spec names the breakpoints xs, sm, md, lg
    and xl, in this order; the source compares a name with ['xs'] and looks a
    member up by name with [getattr(Breakpoint, name)] (module
    [BreakpointEnum] below). *)
Inductive Breakpoint : Type := xs | sm | md | lg | xl.

Global Instance Breakpoint_eq_dec : EqDecision Breakpoint.
Proof. solve_decision. Defined.

(** A row of the bounds tables: lower and upper pixel bound, either of which
    may be absent at the extremes. *)
Record Bound : Type := mkBound { bound_min : option Z; bound_max : option Z }.

(** A number handed to the plural rule: the source passes integers and, in the
    column identifier, a string. *)
Inductive pynum : Type :=
  | NInt (i : Z)
  | NStr (s : string).

(** The class tags of the plugins an ancestry is made of.
    [OtherBootstrapPlugin] stands for the further classes that derive from
    [BootstrapPluginBase], [ForeignPlugin] for every class that does not. *)
Inductive plugin_class : Type :=
  | ContainerClass
  | RowClass
  | ColumnClass
  | JumbotronClass
  | OtherBootstrapPlugin (name : string)
  | ForeignPlugin (name : string).

(** A plugin instance as this module reads it: its class, its own glossary,
    the glossary completed with the ancestors' entries
    ([get_complete_glossary()]) and its children. *)
Record plugin : Type := mkPlugin {
  plugin_cls : plugin_class;
  glossary : gmap string gval;
  complete_glossary : gmap string gval;
  children : list (plugin_class * gmap string gval)
}.

(** What the hosting framework and the settings provide. *)
Class Host : Type := {
  (** [bp.label] *)
  label : Breakpoint -> string;
  (** [Breakpoint.range(first, last)] *)
  breakpoint_range : Breakpoint -> option Breakpoint -> list Breakpoint;
  (** [app_settings.CMSPLUGIN_CASCADE['bootstrap4'][...]], ordered tables *)
  fluid_bounds : list (Breakpoint * Bound);
  default_bounds : list (Breakpoint * Bound);
  (** whether the catalogue's plural rule picks the plural form *)
  plural : pynum -> bool;
  (** [conditional_escape] *)
  conditional_escape : string -> string;
  (** the base class' [get_identifier(obj)] *)
  super_get_identifier : plugin -> string;
  (** the names, other than those of the members and [range], under which
      [getattr(Breakpoint, name)] finds an attribute of the class *)
  class_attribute : string -> bool
}.

Module BreakpointEnum.

Definition members : list Breakpoint := [xs; sm; md; lg; xl].

(** [bp.name] *)
Definition name (bp : Breakpoint) : string :=
  match bp with
  | xs => "xs" | sm => "sm" | md => "md" | lg => "lg" | xl => "xl"
  end.

(** The names under which the class has an attribute that is no member:
    [range], which the source calls on the class, and those the host names. *)
Definition other_attribute `{Host} (s : string) : bool :=
  bool_decide (s = "range") || class_attribute s.

(** [getattr(Breakpoint, s)]: the member of that name; for the name of
    another attribute of the class the run goes on with that attribute,
    which [Breakpoint.range] and the look-ups of grid.py receive; any other
    name is an [AttributeError]. *)
Definition getattr `{Host} (s : string) : result Breakpoint :=
  match list_find (fun bp => name bp = s) members with
  | Some (_, bp) => Ok bp
  | None => if other_attribute s then Beyond s else Raise AttributeError
  end.

End BreakpointEnum.


Section Framework.
Context `{Host}.

(** [ungettext_lazy(singular, plural, number)], as the text that [.format]
    is then called on. With an integer the plural rule picks one of the two
    phrases. With a number that is no integer, Django 1.11 (the version the
    migrations of this repository are generated by) returns the proxy of an
    empty [NumberAwareString], which picks a phrase only under the operator
    [%]: [.format] is called on the empty string. *)
Definition ungettext_lazy (singular plural_form : string) (number : pynum) : string :=
  match number with
  | NInt _ => if plural number then plural_form else singular
  | NStr _ => ""
  end.

(** [format_html('{0}{1}', a, b)] *)
Definition format_html (a b : string) : string :=
  conditional_escape a +:+ conditional_escape b.

(** [table[bp]] on an ordered table of the settings *)
Fixpoint bounds_getitem (table : list (Breakpoint * Bound)) (bp : Breakpoint) : result Bound :=
  match table with
  | [] => Raise (KeyError (BreakpointEnum.name bp))
  | (k, b) :: table' => if decide (k = bp) then Ok b else bounds_getitem table' bp
  end.

(** ['{:.0f}'.format(x)] for a bound: the integer's digits; [None] has no
    such format. *)
Definition format_0f (x : option Z) : result string :=
  match x with
  | Some z => Ok (Py.str z)
  | None => Raise TypeError
  end.

End Framework.

(** ** The choices of the container's breakpoint widget *)

(** [str(x)] of a bound, as a field [{}] formats it. *)
Definition format_bound (x : option Z) : string :=
  match x with
  | Some z => Py.str z
  | None => "None"
  end.

Section WidgetChoices.
Context `{Host}.

(** One turn of the loop of [get_widget_choices] over a table of [n] rows. *)
Definition widget_choice (n index : nat) (entry : Breakpoint * Bound) : string * string :=
  let '(bp, bound) := entry in
  if decide (index = 0) then
    (BreakpointEnum.name bp,
     Py.format "{} (<{}px)" [label bp; format_bound (bound_max bound)])
  else if decide (index = n - 1) then
    (BreakpointEnum.name bp,
     Py.format "{} (≥{}px)" [label bp; format_bound (bound_min bound)])
  else
    (BreakpointEnum.name bp,
     Py.format "{} (≥{}px and <{}px)"
       [label bp; format_bound (bound_min bound); format_bound (bound_max bound)]).

(** [get_widget_choices] *)
Definition get_widget_choices : list (string * string) :=
  let breakpoints := fluid_bounds in
  imap (widget_choice (length breakpoints)) breakpoints.

End WidgetChoices.

(** ** The container plugin *)

Module BootstrapContainerForm.

(** [clean_glossary]: [cleaned_data] is the form's cleaned data, whose
    ['glossary'] entry is the submitted glossary. *)
Definition clean_glossary (cleaned_glossary : gmap string gval)
    : result (gmap string gval) :=
  let* breakpoints := getitem cleaned_glossary "breakpoints" in
  let* n := len breakpoints in
  if decide (n = 0)
  then Raise (ValidationError "At least one breakpoint must be selected.")
  else Ok cleaned_glossary.

End BootstrapContainerForm.

Module BootstrapContainerPlugin.
Section WithHost.
Context `{Host}.

(** [get_identifier]: the selection read from the glossary only guards
    the branch; the device list is built from the table of the settings
    the variable is assigned anew. *)
Definition get_identifier (obj : plugin) : string :=
  let identifier := super_get_identifier obj in
  let breakpoints := truthy_get (glossary obj) "breakpoints" in
  let content := if truthy_get (glossary obj) "fluid" then "(fluid) " else "" in
  let content :=
    if breakpoints then
      let breakpoints := fluid_bounds.*1 in
      let devices := Py.join ", " (label <$> breakpoints) in
      Py.format "{0}for {1}" [content; devices]
    else content in
  format_html identifier content.

(** [get_css_classes]; [super_css_classes] are the classes of the base class. *)
Definition get_css_classes (super_css_classes : list string) (obj : plugin)
    : list string :=
  if truthy_get (glossary obj) "fluid"
  then super_css_classes ++ ["container-fluid"]
  else super_css_classes ++ ["container"].

End WithHost.
End BootstrapContainerPlugin.

(** ** The row plugin *)

Module BootstrapRowForm.

Definition ROW_NUM_COLUMNS : list Z := [1; 2; 3; 4; 6; 12]%Z.

End BootstrapRowForm.

Module BootstrapRowPlugin.

(** Modelled from the spec: [extend_children] of the plugin base class,
    which is not among the sources. The spec has it reconcile the existing
    children with the requested count, adding or removing to converge; a
    child it adds is of [child_class] and carries [child_glossary]. *)
Definition extend_children (obj : plugin) (wanted_children : Z)
    (child_class : plugin_class) (child_glossary : gmap string gval) : plugin :=
  let n := Z.to_nat wanted_children in
  let current := children obj in
  mkPlugin (plugin_cls obj) (glossary obj) (complete_glossary obj)
    (take n current ++ replicate (n - length current) (child_class, child_glossary)).

(** [12 // wanted_children] *)
Definition column_width (wanted_children : Z) : result Z :=
  if decide (wanted_children = 0%Z) then Raise ZeroDivisionError
  else Ok (12 / wanted_children)%Z.

(** The dictionary [child_glossary] of [save_model]. *)
Definition child_glossary (narrowest : string) (column_width : Z)
    : gmap string gval :=
  {[ Py.format "{0}-column-width" [narrowest] :=
       VStr (Py.format "col-{0}-{1}" [narrowest; Py.str column_width]) ]}.

(** [save_model]: [wanted_children] is [int(form.cleaned_data.get('num_children'))];
    saving the object itself is the base class' work. *)
Definition save_model (obj : plugin) (wanted_children : Z) : result plugin :=
  let parent_glossary := complete_glossary obj in
  let* breakpoints := getitem parent_glossary "breakpoints" in
  let* narrowest := first_item breakpoints in
  let* column_width := column_width wanted_children in
  let child_glossary := child_glossary narrowest column_width in
  Ok (extend_children obj wanted_children ColumnClass child_glossary).

End BootstrapRowPlugin.

(** ** The column plugin *)

Inductive widget : Type :=
  | Select (choices : list (string * string))
  | RadioSelect (choices : list (string * string)).

Definition widget_choices (w : widget) : list (string * string) :=
  match w with
  | Select c => c
  | RadioSelect c => c
  end.

(** A [GlossaryField]; [gf_initial] is [None] where the source passes none. *)
Record GlossaryField : Type := mkGlossaryField {
  gf_widget : widget;
  gf_label : string;
  gf_name : string;
  gf_initial : option string;
  gf_help_text : string
}.

Module BootstrapColumnPlugin.
Section WithHost.
Context `{Host}.

(** [issubclass(cls, BootstrapPluginBase)] *)
Definition is_bootstrap_plugin (cls : plugin_class) : bool :=
  match cls with
  | ForeignPlugin _ => false
  | _ => true
  end.

(** [issubclass(cls, BootstrapContainerPlugin)] *)
Definition is_container_plugin (cls : plugin_class) : bool :=
  match cls with
  | ContainerClass => true
  | _ => false
  end.

(** The loop that walks up the ancestry. [ancestors] lists what
    [get_parent_instance] returns in turn, the nearest parent first; at
    the end of the list it returns [None], with which the loop ends. *)
Fixpoint find_container (ancestors : list plugin) : result (option plugin) :=
  match ancestors with
  | [] => Ok None
  | container :: ancestors' =>
      if negb (is_bootstrap_plugin (plugin_cls container))
      then Raise (ImproperlyConfigured "A BootstrapColumnPlugin requires a valid parent")
      else if is_container_plugin (plugin_cls container)
      then Ok (Some container)
      else find_container ancestors'
  end.

(** [container.glossary], an [AttributeError] on [None]. *)
Definition container_glossary (container : option plugin)
    : result (gmap string gval) :=
  match container with
  | Some c => Ok (glossary c)
  | None => Raise AttributeError
  end.

(** The closure [choose_help_text], with the variables it captures
    ([container], [breakpoints], [first], [last]) as arguments. A member
    of the enumeration counts as true in [if last], [None] as false. *)
Definition choose_help_text (container : gmap string gval)
    (breakpoints : list string) (first : Breakpoint) (last : option Breakpoint)
    (phrases : string * string * string) : result string :=
  let* fluid := getitem container "fluid" in
  let bs4_breakpoints := if truthy fluid then fluid_bounds else default_bounds in
  match last with
  | Some last =>
      let* bound := bounds_getitem bs4_breakpoints last in
      let* px := format_0f (bound_max bound) in
      Ok (Py.format phrases.1.1 [px])
  | None =>
      if decide (1 < length breakpoints) then
        let* bound := bounds_getitem bs4_breakpoints first in
        let* px := format_0f (bound_min bound) in
        Ok (Py.format phrases.1.2 [px])
      else Ok phrases.2
  end.

(** [units]: the texts for 0 to 12 units. *)
Definition units : list string :=
  (fun i => Py.format (ungettext_lazy "{} unit" "{} units" (NInt i)) [Py.str i])
    <$> Py.range 0 13.

(** [units[i]], for an [i] of [range(0, 13)]. *)
Definition unit_text (i : Z) : string := nth (Z.to_nat i) units "".

(** The choices of the width field before the inherit entry is put in front. *)
Definition width_choices (bp : string) : list (string * string) :=
  if decide (bp = "xs") then
    [("col", "Flex column")]
    ++ ((fun i => (Py.format "col-{}" [Py.str i],
                   Py.format "{} fixed column" [unit_text i])) <$> Py.range 1 13)
    ++ [("col-auto", "Auto column")]
  else
    [(Py.format "col-{}" [bp], "Flex column")]
    ++ ((fun i => (Py.format "col-{}-{}" [bp; Py.str i],
                   Py.format "{} fixed column" [unit_text i])) <$> Py.range 1 13)
    ++ [(Py.format "col-{}-auto" [bp], "Auto column")].

(** The width field of the breakpoint at position [idx]. *)
Definition width_field (idx : nat) (bp devices : string)
    (help : string * string * string -> result string) : result GlossaryField :=
  let choices := width_choices bp in
  if decide (idx = 0) then
    let* help_text := help ("Column width for devices narrower than {:.0f} pixels.",
                            "Column width for devices wider than {:.0f} pixels.",
                            "Column width for all devices.") in
    Ok (mkGlossaryField (Select choices)
          (Py.format "Column width for {}" [devices])
          (Py.format "{}-column-width" [bp])
          (Some (Py.format "col-{}-12" [bp]))
          help_text)
  else
    let choices := ("", "Inherit from above") :: choices in
    let* help_text := help ("Override column width for devices narrower than {:.0f} pixels.",
                            "Override column width for devices wider than {:.0f} pixels.",
                            "Override column width for all devices.") in
    Ok (mkGlossaryField (Select choices)
          (Py.format "Column width for {}" [devices])
          (Py.format "{}-column-width" [bp])
          (Some "")
          help_text).

(** The choices of the offset field. *)
Definition offset_choices (idx : nat) (bp : string) : list (string * string) :=
  let '(choices, offset_range) :=
    if decide (idx = 0) then ([("", "No offset")], Py.range 1 13)
    else ([("", "Inherit from above")], Py.range 0 13) in
  if decide (bp = "xs")
  then choices ++ ((fun i => (Py.format "offset-{}" [Py.str i], unit_text i)) <$> offset_range)
  else choices ++ ((fun i => (Py.format "offset-{}-{}" [bp; Py.str i], unit_text i)) <$> offset_range).

Definition offset_field (idx : nat) (bp devices : string)
    (help : string * string * string -> result string) : result GlossaryField :=
  let choices := offset_choices idx bp in
  let label := Py.format "Offset for {}" [devices] in
  let* help_text := help ("Offset width for devices narrower than {:.0f} pixels.",
                          "Offset width for devices wider than {:.0f} pixels.",
                          "Offset width for all devices.") in
  Ok (mkGlossaryField (Select choices) label
        (Py.format "{}-column-offset" [bp]) None help_text).

(** The choices of the reordering field. *)
Definition ordering_choices (bp : string) : list (string * string) :=
  let choices := [("", "No reordering")] in
  if decide (bp = "xs")
  then choices ++ ((fun i => (Py.format "order-{}" [Py.str i],
                              Py.format "Reorder by {}" [unit_text i])) <$> Py.range 1 13)
  else choices ++ ((fun i => (Py.format "order-{}-{}" [bp; Py.str i],
                              Py.format "Reorder by {}" [unit_text i])) <$> Py.range 1 13).

Definition ordering_field (bp devices : string)
    (help : string * string * string -> result string) : result GlossaryField :=
  let choices := ordering_choices bp in
  let label := Py.format "Reordering for {}" [devices] in
  let* help_text := help ("Reordering for devices narrower than {:.0f} pixels.",
                          "Reordering for devices wider than {:.0f} pixels.",
                          "Reordering for all devices.") in
  Ok (mkGlossaryField (Select choices) label
        (Py.format "{}-column-ordering" [bp]) None help_text).

(** The choices of the responsive utilities. *)
Definition responsive_choices (bp : string) : list (string * string) :=
  [("", "Default");
   (Py.format "visible-{}" [bp], "Visible");
   (Py.format "hidden-{}" [bp], "Hidden")].

Definition responsive_field (bp devices : string)
    (help : string * string * string -> result string) : result GlossaryField :=
  let choices := responsive_choices bp in
  let label := Py.format "Responsive utilities for {}" [devices] in
  let* help_text :=
    help ("Utility classes for showing and hiding content by devices narrower than {:.0f} pixels.",
          "Utility classes for showing and hiding content by devices wider than {:.0f} pixels.",
          "Utility classes for showing and hiding content for all devices.") in
  Ok (mkGlossaryField (RadioSelect choices) label
        (Py.format "{}-responsive-utils" [bp]) (Some "") help_text).

(** The neighbour [last] of the [try] block: the member named by the
    entry after the first occurrence of [bp], [None] after an
    [IndexError]. *)
Definition next_breakpoint (breakpoints : list string) (idx : nat)
    : result (option Breakpoint) :=
  match breakpoints !! (idx + 1) with
  | Some next => let* last := BreakpointEnum.getattr next in Ok (Some last)
  | None => Ok None
  end.

(** Whether the local [last] is assigned when a turn of the loop starts. A
    turn that ends normally has assigned it, in its [try] or its [except]
    block, and has appended its fields; [glossary_fields] is empty until
    then. So [last] is unassigned on the first turn and only there. *)
Definition last_assigned (glossary_fields : list GlossaryField) : bool :=
  match glossary_fields with
  | [] => false
  | _ :: _ => true
  end.

(** The [try] and [except] blocks of a turn: the position of [bp] and the
    neighbour [last]. *)
Definition try_last (breakpoints : list string) (bp : string)
    : result (nat * option Breakpoint) :=
  let* idx := Py.index bp breakpoints in
  let* last := next_breakpoint breakpoints idx in
  Ok (idx, last).

(** The rest of a turn once [first] and [last] are assigned: [devices] and
    the four fields, appended to [glossary_fields]. *)
Definition turn_fields (container : gmap string gval) (breakpoints : list string)
    (glossary_fields : list GlossaryField) (bp : string) (idx : nat)
    (last : option Breakpoint) (first : Breakpoint) : result (list GlossaryField) :=
  let devices := Py.join ", " (label <$> breakpoint_range first last) in
  let help := choose_help_text container breakpoints first last in
  let* width := width_field idx bp devices help in
  let* offset := offset_field idx bp devices help in
  let* ordering := ordering_field bp devices help in
  let* responsive := responsive_field bp devices help in
  Ok (glossary_fields ++ [width; offset; ordering; responsive]).

(** The [finally] block while an exception of the [try] block is pending.
    The lookup of [first] may raise, which replaces the pending exception.
    Then [devices] reads [last], which the [try] block has not assigned: on
    the first turn that is an [UnboundLocalError]; on a later turn [last]
    still holds the neighbour of the turn before, [devices] is computed and
    the pending exception is raised again at the end of the block. *)
Definition finally_pending (glossary_fields : list GlossaryField) (bp : string)
    (pending : exn) : result (list GlossaryField) :=
  match BreakpointEnum.getattr bp with
  | Raise e => Raise e
  | Ok _ =>
      if last_assigned glossary_fields then Raise pending else Raise UnboundLocalError
  | Beyond what =>
      if last_assigned glossary_fields then Beyond what else Raise UnboundLocalError
  end.

(** One turn of [for bp in breakpoints], appending four fields. When the
    [try] block has assigned to [last] an attribute that is no member, the
    [finally] block looks [first] up and hands both to [Breakpoint.range]. *)
Definition loop_body (container : gmap string gval) (breakpoints : list string)
    (glossary_fields : list GlossaryField) (bp : string)
    : result (list GlossaryField) :=
  match try_last breakpoints bp with
  | Ok (idx, last) =>
      let* first := BreakpointEnum.getattr bp in
      turn_fields container breakpoints glossary_fields bp idx last first
  | Raise pending => finally_pending glossary_fields bp pending
  | Beyond what =>
      match BreakpointEnum.getattr bp with
      | Raise e => Raise e
      | _ => Beyond what
      end
  end.

(** [a // b] on lengths *)
Definition floordiv (a b : nat) : result nat :=
  if decide (b = 0) then Raise ZeroDivisionError else Ok (a / b).

(** [l[i]] *)
Definition list_getitem {A} (l : list A) (i : nat) : result A :=
  match l !! i with
  | Some x => Ok x
  | None => Raise IndexError
  end.

(** [[f(i, j) for i in range(0, n) for j in range(0, k)]] *)
Fixpoint comprehension {A} (f : nat -> nat -> result A) (pairs : list (nat * nat))
    : result (list A) :=
  match pairs with
  | [] => Ok []
  | (i, j) :: pairs' =>
      let* x := f i j in
      let* rest := comprehension f pairs' in
      Ok (x :: rest)
  end.

(** The pairs [(i, j)] in the order the two [for] clauses produce them. *)
Definition index_pairs (n k : nat) : list (nat * nat) :=
  i ← seq 0 n; (fun j => (i, j)) <$> seq 0 k.

(** The list comprehension that closes [get_form]. *)
Definition reorder (glossary_fields : list GlossaryField) (breakpoints : list string)
    : result (list GlossaryField) :=
  let* per := floordiv (length glossary_fields) (length breakpoints) in
  comprehension (fun i j => list_getitem glossary_fields (i + per * j))
    (index_pairs per (length breakpoints)).

(** [get_form]: the value is the [glossary_fields] handed to the base
    class' [get_form]. *)
Definition get_form (ancestors : list plugin) : result (list GlossaryField) :=
  let* container := find_container ancestors in
  let* container := container_glossary container in
  let* breakpoints := getitem container "breakpoints" in
  let* breakpoints := iter breakpoints in
  let* glossary_fields := for_each (loop_body container breakpoints) breakpoints [] in
  reorder glossary_fields breakpoints.

(** The text of one breakpoint's width in [get_identifier]:
    [obj.glossary.get(key, '').replace(prefix, '')]. *)
Definition width_text (g : gmap string gval) (bp : string) : result string :=
  match g !! Py.format "{0}-column-width" [bp] with
  | None => Ok (Py.replace (Py.format "col-{0}-" [bp]) "" "")
  | Some (VStr s) => Ok (Py.replace (Py.format "col-{0}-" [bp]) "" s)
  | Some _ => Raise AttributeError
  end.

(** The loop that collects [widths]. *)
Definition collect_width (g : gmap string gval) (widths : list string) (bp : string)
    : result (list string) :=
  let* width := width_text g bp in
  if decide (width = "") then Ok widths else Ok (widths ++ [width]).

(** [glossary.get('breakpoints', [])] as the sequence the loop runs over. *)
Definition breakpoints_or_empty (g : gmap string gval) : result (list string) :=
  match g !! "breakpoints" with
  | Some v => iter v
  | None => Ok []
  end.

(** [get_identifier] *)
Definition get_identifier (obj : plugin) : result string :=
  let identifier := super_get_identifier obj in
  let glossary_ := complete_glossary obj in
  let* breakpoints := breakpoints_or_empty glossary_ in
  let* widths := for_each (collect_width (glossary obj)) breakpoints [] in
  let content :=
    if decide (1 < length widths) then
      Py.format "widths: {0} units" [Py.join " / " widths]
    else
      match widths with
      | [width] =>
          Py.format (ungettext_lazy "default width: {0} unit"
                       "default width: {0} units" (NStr width)) [width]
      | _ => "unknown width"
      end in
  Ok (format_html identifier content).

(** [default_css_attributes]: the four glossary keys of every member of the
    enumeration. *)
Definition default_css_attributes : list string :=
  bp ← BreakpointEnum.members;
  (fun fmt => Py.format fmt [BreakpointEnum.name bp])
    <$> ["{}-column-width"; "{}-column-offset"; "{}-column-ordering";
         "{}-responsive-utils"].

End WithHost.
End BootstrapColumnPlugin.

(** ** A configuration for the concrete examples

    The five breakpoints with labels and pixel bounds chosen for the
    examples; no catalogue (the plural form for every integer but 1), no
    character to escape, an empty base identifier, no attribute of the
    class besides its members and [range]. *)

Module Sample.

Definition rank (bp : Breakpoint) : nat :=
  match bp with
  | xs => 0 | sm => 1 | md => 2 | lg => 3 | xl => 4
  end.

Definition sample_label (bp : Breakpoint) : string :=
  match bp with
  | xs => "Portrait Phones"
  | sm => "Landscape Phones"
  | md => "Tablets"
  | lg => "Laptops"
  | xl => "Large Desktops"
  end.

Definition sample_range (first : Breakpoint) (last : option Breakpoint)
    : list Breakpoint :=
  List.filter (fun bp => (rank first <=? rank bp)
                         && match last with Some l => rank bp <? rank l | None => true end)
    BreakpointEnum.members.

Definition sample_default_bounds : list (Breakpoint * Bound) :=
  [(xs, mkBound (Some 0%Z) (Some 576%Z));
   (sm, mkBound (Some 576%Z) (Some 768%Z));
   (md, mkBound (Some 768%Z) (Some 992%Z));
   (lg, mkBound (Some 992%Z) (Some 1200%Z));
   (xl, mkBound (Some 1200%Z) (Some 1980%Z))].

Definition sample_fluid_bounds : list (Breakpoint * Bound) :=
  [(xs, mkBound (Some 320%Z) (Some 576%Z));
   (sm, mkBound (Some 576%Z) (Some 768%Z));
   (md, mkBound (Some 768%Z) (Some 992%Z));
   (lg, mkBound (Some 992%Z) (Some 1200%Z));
   (xl, mkBound (Some 1200%Z) (Some 1980%Z))].

Definition sample_plural (n : pynum) : bool :=
  match n with
  | NInt i => if decide (i = 1%Z) then false else true
  | NStr _ => true
  end.

Definition host : Host := {|
  label := sample_label;
  breakpoint_range := sample_range;
  fluid_bounds := sample_fluid_bounds;
  default_bounds := sample_default_bounds;
  plural := sample_plural;
  conditional_escape := fun s => s;
  super_get_identifier := fun _ => "";
  class_attribute := fun _ => false
|}.

(** A plugin instance with the given class and glossary and no children;
    [inherited] are the entries its ancestors contribute. *)
Definition instance (cls : plugin_class) (own inherited : gmap string gval) : plugin :=
  mkPlugin cls own (own ∪ inherited) [].

End Sample.

(** ** Vocabulary of the statements *)

(** A breakpoint whose width entry in the glossary [g] is absent or the
    empty string. *)
Definition width_unset (g : gmap string gval) (bp : string) : Prop :=
  g !! (bp +:+ "-column-width") = None \/ g !! (bp +:+ "-column-width") = Some (VStr "").

(** The four fields of one breakpoint: width, offset, ordering, visibility. *)
Record field_group : Type := mkGroup {
  width_of : GlossaryField;
  offset_of : GlossaryField;
  ordering_of : GlossaryField;
  responsive_of : GlossaryField
}.

(** The fields grouped by breakpoint, as the loop of [get_form] appends them. *)
Definition by_breakpoint (groups : list field_group) : list GlossaryField :=
  g ← groups; [width_of g; offset_of g; ordering_of g; responsive_of g].

(** The fields by category: all widths, then all offsets, all orderings and
    all visibilities, each in the order of the breakpoints. *)
Definition by_category (groups : list field_group) : list GlossaryField :=
  (width_of <$> groups) ++ (offset_of <$> groups)
  ++ (ordering_of <$> groups) ++ (responsive_of <$> groups).

(** The last character of a string. *)
Fixpoint last_char (s : string) : option ascii :=
  match s with
  | EmptyString => None
  | String c EmptyString => Some c
  | String _ s' => last_char s'
  end.

(** A breakpoint whose rows in both tables of the settings give both bounds. *)
Definition bounds_configured `{Host} (bp : Breakpoint) : Prop :=
  (exists lo hi, bounds_getitem fluid_bounds bp = Ok (mkBound (Some lo) (Some hi)))
  /\ (exists lo hi, bounds_getitem default_bounds bp = Ok (mkBound (Some lo) (Some hi))).

(** A name of the selection that is a member of the enumeration with
    configured bounds. *)
Definition selectable `{Host} (name : string) : Prop :=
  exists bp, BreakpointEnum.getattr name = Ok bp /\ bounds_configured bp.

(** The container of the examples, which selects sm and lg, and the ancestry
    of a column in a row of it. *)
Definition sample_container : plugin :=
  Sample.instance ContainerClass
    {[ "breakpoints" := VList ["sm"; "lg"]; "fluid" := VBool false ]} ∅.

Definition sample_ancestors : list plugin :=
  [Sample.instance RowClass ∅ (glossary sample_container); sample_container].

(** A container whose list names sm twice. *)
Definition repeating_ancestors : list plugin :=
  [Sample.instance RowClass ∅ ∅;
   Sample.instance ContainerClass
     {[ "breakpoints" := VList ["sm"; "lg"; "sm"]; "fluid" := VBool false ]} ∅].

(** The exceptions the loop of [get_form] can end in. *)
Definition loop_error (e : exn) : Prop :=
  e = ValueError \/ e = AttributeError \/ (exists key, e = KeyError key) \/ e = TypeError
  \/ e = UnboundLocalError.

(** An ancestor that derives from [BootstrapPluginBase] and is no container:
    the loop of [get_form] passes it. *)
Definition passed_ancestor (a : plugin) : Prop :=
  BootstrapColumnPlugin.is_bootstrap_plugin (plugin_cls a) = true
  /\ BootstrapColumnPlugin.is_container_plugin (plugin_cls a) = false.

(** The number that a text of decimal digits writes; [None] for a text that
    is empty or holds another character. *)
Fixpoint digits_value_from (acc : Z) (s : string) : option Z :=
  match s with
  | EmptyString => Some acc
  | String c s' =>
      if decide (48 <= nat_of_ascii c <= 57)
      then digits_value_from (10 * acc + Z.of_nat (nat_of_ascii c - 48)) s'
      else None
  end.

Definition digits_value (s : string) : option Z :=
  match s with
  | EmptyString => None
  | String _ _ => digits_value_from 0 s
  end.

(** The units of the width that the glossary [g] of a column holds for the
    breakpoint [bp], read the way the column's identifier reads it. *)
Definition width_units (g : gmap string gval) (bp : string) : option Z :=
  match BootstrapColumnPlugin.width_text g bp with
  | Ok text => digits_value text
  | _ => None
  end.

(** The widths of the children of a row at the breakpoint [bp], added up;
    [None] when a child holds no such width. *)
Definition children_units (obj : plugin) (bp : string) : option Z :=
  foldr (fun child total =>
           match width_units child.2 bp, total with
           | Some w, Some t => Some (w + t)%Z
           | _, _ => None
           end)
    (Some 0%Z) (children obj).

(** * Properties *)

Import BreakpointEnum.

(** ** Strings *)

Lemma app_empty_r (s : string) : s +:+ "" = s.
Proof. induction s as [|c s IH]; [reflexivity|]. cbv [String.append] in *. by f_equal. Qed.

Lemma format_column_width_key (bp : string) :
  Py.format "{0}-column-width" [bp] = bp +:+ "-column-width".
Proof. reflexivity. Qed.

Lemma format_col_prefix (bp : string) :
  Py.format "col-{0}-" [bp] = "col-" +:+ bp +:+ "-".
Proof. reflexivity. Qed.

Lemma format_col_value (bp w : string) :
  Py.format "col-{0}-{1}" [bp; w] = "col-" +:+ bp +:+ "-" +:+ w.
Proof.
  change (Py.format "col-{0}-{1}" [bp; w]) with ("col-" +:+ bp +:+ "-" +:+ w +:+ "").
  by rewrite app_empty_r.
Qed.

(** ** The container form *)

(** C8: a submission whose glossary selects no breakpoint is rejected with
    the validation error and its message; a submission that selects at least
    one breakpoint gets its cleaned glossary back unchanged. *)
Theorem clean_glossary_validates (g : gmap string gval) (bp : string) (bps : list string) :
  BootstrapContainerForm.clean_glossary (<["breakpoints" := VList []]> g)
    = Raise (ValidationError "At least one breakpoint must be selected.")
  /\ BootstrapContainerForm.clean_glossary (<["breakpoints" := VList (bp :: bps)]> g)
    = Ok (<["breakpoints" := VList (bp :: bps)]> g).
Proof.
  unfold BootstrapContainerForm.clean_glossary, getitem.
  split; by rewrite lookup_insert_eq.
Qed.

(** ** The row plugin *)

Import BootstrapRowForm BootstrapRowPlugin.

Lemma row_num_columns_cases (N : Z) :
  N ∈ ROW_NUM_COLUMNS ->
  N = 1%Z \/ N = 2%Z \/ N = 3%Z \/ N = 4%Z \/ N = 6%Z \/ N = 12%Z.
Proof. unfold ROW_NUM_COLUMNS. rewrite !elem_of_cons, elem_of_nil. tauto. Qed.

Lemma child_glossary_lookup (narrowest : string) (w : Z) :
  child_glossary narrowest w !! (narrowest +:+ "-column-width")
  = Some (VStr ("col-" +:+ narrowest +:+ "-" +:+ Py.str w)).
Proof.
  unfold child_glossary.
  rewrite format_column_width_key, format_col_value.
  apply lookup_singleton_eq.
Qed.

(** C1: saving a row with a count N of the form's list leaves the row with
    exactly N children: the first of the former ones are kept and every
    child that is added is a column whose glossary holds, under the key of
    the first breakpoint of the container's list, the width 12 // N. *)
Theorem save_model_reconciles (obj : plugin) (N : Z) (narrowest : string)
    (rest : list string) :
  N ∈ ROW_NUM_COLUMNS ->
  complete_glossary obj !! "breakpoints" = Some (VList (narrowest :: rest)) ->
  exists obj' added,
    save_model obj N = Ok obj'
    /\ length (children obj') = Z.to_nat N
    /\ children obj' = take (Z.to_nat N) (children obj) ++ added
    /\ length added = Z.to_nat N - length (children obj)
    /\ Forall (fun child =>
         child.1 = ColumnClass
         /\ child.2 !! (narrowest +:+ "-column-width")
            = Some (VStr ("col-" +:+ narrowest +:+ "-" +:+ Py.str (12 / N)))) added.
Proof.
  intros HN Hbps.
  assert (N <> 0%Z) as Hnz by (apply row_num_columns_cases in HN; lia).
  exists (extend_children obj N ColumnClass (child_glossary narrowest (12 / N))),
    (replicate (Z.to_nat N - length (children obj))
       (ColumnClass, child_glossary narrowest (12 / N))).
  repeat split.
  - unfold save_model, getitem, column_width. rewrite Hbps. simpl.
    by destruct (decide (N = 0%Z)).
  - simpl. rewrite length_app, length_take, length_replicate. lia.
  - apply length_replicate.
  - apply Forall_replicate. split; [reflexivity|]. apply child_glossary_lookup.
Qed.

Lemma save_model_reconciles_witness :
  exists obj' added,
    save_model (Sample.instance RowClass ∅ {["breakpoints" := VList ["sm"; "lg"]]}) 3 = Ok obj'
    /\ length (children obj') = 3
    /\ children obj' = added
    /\ length added = 3
    /\ Forall (fun child =>
         child.1 = ColumnClass
         /\ child.2 !! "sm-column-width" = Some (VStr "col-sm-4")) added.
Proof.
  exact (save_model_reconciles
           (Sample.instance RowClass ∅ {["breakpoints" := VList ["sm"; "lg"]]})
           3 "sm" ["lg"] ltac:(refine (bool_decide_unpack _ _); vm_compute; exact I) eq_refl).
Defined.

(** ** The container's identifier *)

Section ContainerIdentifier.
Context `{Host}.

(** What [get_identifier] returns once any breakpoint is selected: the
    labels of the whole table of the settings. *)
Lemma container_identifier_any_selection (obj : plugin) :
  truthy_get (glossary obj) "breakpoints" = true ->
  BootstrapContainerPlugin.get_identifier obj
  = format_html (super_get_identifier obj)
      (Py.format "{0}for {1}"
         [if truthy_get (glossary obj) "fluid" then "(fluid) " else "";
          Py.join ", " (label <$> fluid_bounds.*1)]).
Proof. intros Hsel. unfold BootstrapContainerPlugin.get_identifier. by rewrite Hsel. Qed.

End ContainerIdentifier.

(** C2: with the five breakpoints configured and the single breakpoint xs
    selected, the identifier names all five labels, not the one selected. *)
Theorem container_identifier_lists_all_configured :
  @BootstrapContainerPlugin.get_identifier Sample.host
    (Sample.instance ContainerClass
       {[ "breakpoints" := VList ["xs"]; "fluid" := VBool false ]} ∅)
  = "for Portrait Phones, Landscape Phones, Tablets, Laptops, Large Desktops"
  /\ @BootstrapContainerPlugin.get_identifier Sample.host
       (Sample.instance ContainerClass
          {[ "breakpoints" := VList ["xs"]; "fluid" := VBool false ]} ∅)
     <> "for " +:+ Py.join ", " (@label Sample.host <$> [xs]).
Proof. split; [by vm_compute|]. vm_compute. discriminate. Qed.

(** ** The column's ancestry *)

Section Ancestry.
Context `{Host}.

(** An ancestor that is no Bootstrap plugin, met before any container, is
    reported as a configuration error. *)
Lemma get_form_foreign_ancestor (below above : list plugin) (p : plugin) :
  Forall (fun a => BootstrapColumnPlugin.is_bootstrap_plugin (plugin_cls a) = true
                   /\ BootstrapColumnPlugin.is_container_plugin (plugin_cls a) = false) below ->
  BootstrapColumnPlugin.is_bootstrap_plugin (plugin_cls p) = false ->
  BootstrapColumnPlugin.get_form (below ++ p :: above)
  = Raise (ImproperlyConfigured "A BootstrapColumnPlugin requires a valid parent").
Proof.
  intros Hbelow Hp. unfold BootstrapColumnPlugin.get_form.
  assert (BootstrapColumnPlugin.find_container (below ++ p :: above)
          = Raise (ImproperlyConfigured "A BootstrapColumnPlugin requires a valid parent")) as ->;
    [|reflexivity].
  induction Hbelow as [|a below [Ha1 Ha2] _ IH]; simpl.
  - by rewrite Hp.
  - by rewrite Ha1, Ha2.
Qed.

(** An ancestry of Bootstrap plugins without a container ends the loop
    with [None], and reading its glossary is an [AttributeError]. *)
Lemma get_form_without_container (ancestors : list plugin) :
  Forall (fun a => BootstrapColumnPlugin.is_bootstrap_plugin (plugin_cls a) = true
                   /\ BootstrapColumnPlugin.is_container_plugin (plugin_cls a) = false) ancestors ->
  BootstrapColumnPlugin.get_form ancestors = Raise AttributeError.
Proof.
  intros Hall. unfold BootstrapColumnPlugin.get_form.
  assert (BootstrapColumnPlugin.find_container ancestors = Ok None) as ->; [|reflexivity].
  induction Hall as [|a ancestors [Ha1 Ha2] _ IH]; simpl; [reflexivity|].
  by rewrite Ha1, Ha2.
Qed.

End Ancestry.

(** C3: for a column in a row in a jumbotron that has no parent, and for a
    column without any parent, [get_form] ends in an [AttributeError], not
    in the configuration error. *)
Theorem get_form_no_container_attribute_error (host : Host) :
  @BootstrapColumnPlugin.get_form host
    [Sample.instance RowClass ∅ ∅; Sample.instance JumbotronClass ∅ ∅]
  = Raise AttributeError
  /\ @BootstrapColumnPlugin.get_form host [] = Raise AttributeError.
Proof. split; reflexivity. Qed.

(** ** The column's identifier *)

(** C5: with the breakpoints xs, sm and md, the xs width set to the form's
    choice for 6 units ([col-6]), no sm width and the md width set to the
    choice for 4 units ([col-md-4]), the identifier reads
    "widths: col-6 / 4 units": the xs entry keeps its prefix. *)
Theorem column_identifier_keeps_xs_prefix :
  ("col-6", "6 units fixed column") ∈ @BootstrapColumnPlugin.width_choices Sample.host "xs"
  /\ ("col-md-4", "4 units fixed column") ∈ @BootstrapColumnPlugin.width_choices Sample.host "md"
  /\ @BootstrapColumnPlugin.get_identifier Sample.host
       (Sample.instance ColumnClass
          {[ "xs-column-width" := VStr "col-6"; "md-column-width" := VStr "col-md-4" ]}
          {[ "breakpoints" := VList ["xs"; "sm"; "md"]; "fluid" := VBool false ]})
     = Ok "widths: col-6 / 4 units".
Proof.
  split; [|split].
  - refine (bool_decide_unpack _ _). vm_compute. exact I.
  - refine (bool_decide_unpack _ _). vm_compute. exact I.
  - by vm_compute.
Qed.

(** The width the row seeds for two columns ([col-xs-6]), which is none of
    the form's choices for xs, is the one spelling that loses its prefix. *)
Lemma column_identifier_seeded_xs :
  @BootstrapColumnPlugin.get_identifier Sample.host
    (Sample.instance ColumnClass
       {[ "xs-column-width" := VStr "col-xs-6"; "md-column-width" := VStr "col-md-4" ]}
       {[ "breakpoints" := VList ["xs"; "sm"; "md"]; "fluid" := VBool false ]})
  = Ok "widths: 6 / 4 units"
  /\ "col-xs-6" ∉ (@BootstrapColumnPlugin.width_choices Sample.host "xs").*1.
Proof.
  split; [by vm_compute|].
  refine (bool_decide_unpack _ _). vm_compute. exact I.
Qed.

Section ColumnIdentifier.
Context `{Host}.

Lemma for_each_app {A S} (body : S -> A -> result S) (l1 l2 : list A) (acc : S) :
  for_each body (l1 ++ l2) acc
  = let* acc' := for_each body l1 acc in for_each body l2 acc'.
Proof.
  revert acc. induction l1 as [|x l1 IH]; intros acc; simpl; [reflexivity|].
  destruct (body acc x); simpl; [apply IH|reflexivity..].
Qed.

Lemma width_text_unset (g : gmap string gval) (bp : string) :
  width_unset g bp -> BootstrapColumnPlugin.width_text g bp = Ok "".
Proof.
  unfold BootstrapColumnPlugin.width_text. rewrite format_column_width_key.
  by intros [-> | ->].
Qed.

Lemma width_text_set (g : gmap string gval) (bp s : string) :
  g !! (bp +:+ "-column-width") = Some (VStr s) ->
  BootstrapColumnPlugin.width_text g bp = Ok (Py.replace ("col-" +:+ bp +:+ "-") "" s).
Proof.
  unfold BootstrapColumnPlugin.width_text. rewrite format_column_width_key.
  by intros ->.
Qed.

Lemma collect_width_unset (g : gmap string gval) (bps acc : list string) :
  Forall (width_unset g) bps ->
  for_each (BootstrapColumnPlugin.collect_width g) bps acc = Ok acc.
Proof.
  intros Hall. revert acc.
  induction Hall as [|bp bps Hbp _ IH]; intros acc; simpl; [reflexivity|].
  unfold BootstrapColumnPlugin.collect_width at 1.
  rewrite (width_text_unset _ _ Hbp). simpl. apply IH.
Qed.

Lemma collect_width_single (g : gmap string gval) (before after : list string)
    (bp s : string) :
  Forall (width_unset g) before ->
  Forall (width_unset g) after ->
  g !! (bp +:+ "-column-width") = Some (VStr s) ->
  Py.replace ("col-" +:+ bp +:+ "-") "" s <> "" ->
  for_each (BootstrapColumnPlugin.collect_width g) (before ++ bp :: after) []
  = Ok [Py.replace ("col-" +:+ bp +:+ "-") "" s].
Proof.
  intros Hbefore Hafter Hset Hne.
  rewrite for_each_app, (collect_width_unset _ _ _ Hbefore).
  pose proof (width_text_set _ _ _ Hset) as Htext.
  remember (Py.replace ("col-" +:+ bp +:+ "-") "" s) as w eqn:Hw.
  simpl. unfold BootstrapColumnPlugin.collect_width at 1.
  rewrite Htext. simpl.
  destruct (decide (w = "")); [done|].
  simpl. apply (collect_width_unset _ _ _ Hafter).
Qed.

(** Without a width for any breakpoint of the container the content of the
    identifier is "unknown width". *)
Lemma column_identifier_no_width (obj : plugin) (bps : list string) :
  BootstrapColumnPlugin.breakpoints_or_empty (complete_glossary obj) = Ok bps ->
  Forall (width_unset (glossary obj)) bps ->
  BootstrapColumnPlugin.get_identifier obj
  = Ok (format_html (super_get_identifier obj) "unknown width").
Proof.
  intros Hbps Hall. unfold BootstrapColumnPlugin.get_identifier.
  rewrite Hbps. simpl. by rewrite (collect_width_unset _ _ _ Hall).
Qed.

(** With exactly one width the number handed to [ungettext_lazy] is the
    text of that width, no integer: the phrase is lost and the content of
    the identifier is empty. *)
Lemma column_identifier_single_width (obj : plugin) (before after : list string)
    (bp s : string) :
  BootstrapColumnPlugin.breakpoints_or_empty (complete_glossary obj)
  = Ok (before ++ bp :: after) ->
  Forall (width_unset (glossary obj)) before ->
  Forall (width_unset (glossary obj)) after ->
  glossary obj !! (bp +:+ "-column-width") = Some (VStr s) ->
  Py.replace ("col-" +:+ bp +:+ "-") "" s <> "" ->
  BootstrapColumnPlugin.get_identifier obj
  = Ok (format_html (super_get_identifier obj) "").
Proof.
  intros Hbps Hbefore Hafter Hset Hne.
  pose proof (collect_width_single _ _ _ _ _ Hbefore Hafter Hset Hne) as Hone.
  remember (Py.replace ("col-" +:+ bp +:+ "-") "" s) as w eqn:Hw.
  unfold BootstrapColumnPlugin.get_identifier. rewrite Hbps. simpl.
  rewrite Hone. reflexivity.
Qed.

End ColumnIdentifier.

(** C10: for a column under the breakpoints sm and lg whose glossary holds
    the single width col-lg-4, the content of the identifier is empty: it
    is neither "unknown width" nor a default-width phrase. Without any
    width the content is "unknown width". *)
Theorem column_identifier_single_width_empty :
  @BootstrapColumnPlugin.get_identifier Sample.host
    (Sample.instance ColumnClass {[ "lg-column-width" := VStr "col-lg-4" ]}
       {[ "breakpoints" := VList ["sm"; "lg"] ]})
  = Ok ""
  /\ @BootstrapColumnPlugin.get_identifier Sample.host
       (Sample.instance ColumnClass {[ "sm-column-width" := VStr "" ]}
          {[ "breakpoints" := VList ["sm"; "lg"] ]})
     = Ok "unknown width".
Proof. split; by vm_compute. Qed.

(** ** The fields of the column form *)

Ltac case_bind :=
  match goal with
  | |- context [bind ?r _] => destruct r eqn:?; simpl
  | H : context [bind ?r _] |- _ => destruct r eqn:?; simpl in H
  end.

Section ColumnForm.
Context `{Host}.
Import BootstrapColumnPlugin.

Variable container : gmap string gval.
Variable breakpoints : list string.

(** The accumulator only receives the four new fields. *)
Lemma turn_fields_acc (acc : list GlossaryField) (bp : string) (idx : nat)
    (last : option Breakpoint) (first : Breakpoint) :
  turn_fields container breakpoints acc bp idx last first
  = let* four := turn_fields container breakpoints [] bp idx last first in Ok (acc ++ four).
Proof.
  unfold turn_fields.
  repeat (case_bind; [|reflexivity..]). reflexivity.
Qed.

(** A turn that ends normally does so whatever the accumulator holds. *)
Lemma loop_body_ok (acc : list GlossaryField) (bp : string) (four : list GlossaryField) :
  loop_body container breakpoints [] bp = Ok four ->
  loop_body container breakpoints acc bp = Ok (acc ++ four).
Proof.
  unfold loop_body, finally_pending.
  destruct (try_last breakpoints bp) as [[idx last]|e|what].
  - destruct (getattr bp) as [first| |]; cbn [bind]; [|discriminate..].
    intros Hfour. by rewrite (turn_fields_acc acc), Hfour.
  - destruct (getattr bp); [|discriminate..]. cbn [last_assigned]. discriminate.
  - by destruct (getattr bp).
Qed.

Lemma loop_body_ok_inv (acc : list GlossaryField) (bp : string) (fields : list GlossaryField) :
  loop_body container breakpoints acc bp = Ok fields ->
  exists four, loop_body container breakpoints [] bp = Ok four /\ fields = acc ++ four.
Proof.
  unfold loop_body, finally_pending.
  destruct (try_last breakpoints bp) as [[idx last]|e|what].
  - destruct (getattr bp) as [first| |]; cbn [bind]; [|discriminate..].
    rewrite (turn_fields_acc acc).
    destruct (turn_fields container breakpoints [] bp idx last first) as [four| |];
      cbn [bind]; [|discriminate..].
    intros [= <-]. by exists four.
  - destruct (getattr bp); [|discriminate|]; by destruct (last_assigned acc).
  - by destruct (getattr bp).
Qed.

Lemma loop_body_inv (bp : string) (four : list GlossaryField) :
  loop_body container breakpoints [] bp = Ok four ->
  exists idx last first w o r v,
    four = [w; o; r; v]
    /\ Py.index bp breakpoints = Ok idx
    /\ next_breakpoint breakpoints idx = Ok last
    /\ getattr bp = Ok first
    /\ let devices := Py.join ", " (label <$> breakpoint_range first last) in
       let help := choose_help_text container breakpoints first last in
       width_field idx bp devices help = Ok w
       /\ offset_field idx bp devices help = Ok o
       /\ ordering_field bp devices help = Ok r
       /\ responsive_field bp devices help = Ok v.
Proof.
  unfold loop_body, finally_pending, try_last. intros Hbody.
  destruct (Py.index bp breakpoints) as [idx| |] eqn:Hidx; cbn [bind] in Hbody;
    [|destruct (getattr bp); discriminate..].
  destruct (next_breakpoint breakpoints idx) as [last| |] eqn:Hnext; cbn [bind] in Hbody;
    [|destruct (getattr bp); discriminate..].
  destruct (getattr bp) as [first| |] eqn:Hfirst; cbn [bind] in Hbody; [|discriminate..].
  unfold turn_fields in Hbody.
  repeat (case_bind; [|discriminate..]).
  injection Hbody as <-. eauto 20.
Qed.

(** The loop yields one group of four fields per breakpoint it runs over. *)
Lemma loop_groups (l : list string) (acc fields : list GlossaryField) :
  for_each (loop_body container breakpoints) l acc = Ok fields ->
  exists groups,
    Forall2 (fun bp g =>
               loop_body container breakpoints [] bp
               = Ok [width_of g; offset_of g; ordering_of g; responsive_of g])
      l groups
    /\ fields = acc ++ by_breakpoint groups.
Proof.
  revert acc. induction l as [|bp l IH]; intros acc; simpl.
  - intros [= <-]. exists []. split; [constructor|]. by rewrite app_nil_r.
  - destruct (loop_body container breakpoints acc bp) as [fields'| |] eqn:Hbody;
      [|discriminate..].
    destruct (loop_body_ok_inv _ _ _ Hbody) as (four & Hfour & ->).
    simpl. intros Hrest.
    destruct (loop_body_inv _ _ Hfour) as (idx & last & first & w & o & r & v & -> & _).
    destruct (IH _ Hrest) as (groups & Hall & ->).
    exists (mkGroup w o r v :: groups). split; [by constructor|].
    by rewrite <- app_assoc.
Qed.

End ColumnForm.

Section Reorder.
Context `{Host}.
Import BootstrapColumnPlugin.

Lemma length_by_breakpoint (groups : list field_group) :
  length (by_breakpoint groups) = 4 * length groups.
Proof. induction groups as [|g groups IH]; simpl; [reflexivity|]. rewrite IH. lia. Qed.

Lemma length_by_category (groups : list field_group) :
  length (by_category groups) = 4 * length groups.
Proof. unfold by_category. rewrite !length_app, !length_fmap. lia. Qed.

(** The field of category [i] of the breakpoint at position [j] sits at
    index [i + 4 * j] of the grouped list. *)
Lemma by_breakpoint_lookup (groups : list field_group) (j : nat) (g : field_group) :
  groups !! j = Some g ->
  by_breakpoint groups !! (0 + 4 * j) = Some (width_of g)
  /\ by_breakpoint groups !! (1 + 4 * j) = Some (offset_of g)
  /\ by_breakpoint groups !! (2 + 4 * j) = Some (ordering_of g)
  /\ by_breakpoint groups !! (3 + 4 * j) = Some (responsive_of g).
Proof.
  revert j. induction groups as [|g0 groups IH]; intros j Hj; [done|].
  destruct j as [|j].
  - injection Hj as ->. done.
  - replace (0 + 4 * S j) with (S (S (S (S (0 + 4 * j))))) by lia.
    replace (1 + 4 * S j) with (S (S (S (S (1 + 4 * j))))) by lia.
    replace (2 + 4 * S j) with (S (S (S (S (2 + 4 * j))))) by lia.
    replace (3 + 4 * S j) with (S (S (S (S (3 + 4 * j))))) by lia.
    apply (IH j Hj).
Qed.

Lemma comprehension_app {A} (f : nat -> nat -> result A) (p1 p2 : list (nat * nat)) :
  comprehension f (p1 ++ p2)
  = let* a := comprehension f p1 in let* b := comprehension f p2 in Ok (a ++ b).
Proof.
  induction p1 as [|[i j] p1 IH]; simpl.
  - by destruct (comprehension f p2).
  - destruct (f i j); simpl; [|reflexivity..]. rewrite IH.
    destruct (comprehension f p1); simpl; [|reflexivity..].
    by destruct (comprehension f p2).
Qed.

(** One category: the entries [i + per * j] for the positions [j]. *)
Lemma comprehension_category (fields : list GlossaryField) (per i : nat)
    (positions : list nat) (picked : list GlossaryField) :
  Forall2 (fun j x => fields !! (i + per * j) = Some x) positions picked ->
  comprehension (fun i j => list_getitem fields (i + per * j)) ((fun j => (i, j)) <$> positions)
  = Ok picked.
Proof.
  induction 1 as [|j x positions picked Hx _ IH]; [reflexivity|].
  rewrite fmap_cons. cbn [comprehension].
  unfold list_getitem at 1. rewrite Hx. cbn [bind]. by rewrite IH.
Qed.

Lemma category_positions (groups : list field_group) (i : nat)
    (proj : field_group -> GlossaryField) :
  (forall j g, groups !! j = Some g -> by_breakpoint groups !! (i + 4 * j) = Some (proj g)) ->
  Forall2 (fun j x => by_breakpoint groups !! (i + 4 * j) = Some x)
    (seq 0 (length groups)) (proj <$> groups).
Proof.
  intros Hlookup. apply Forall2_same_length_lookup. split.
  - by rewrite length_seq, length_fmap.
  - intros j pos x Hpos Hx.
    apply lookup_seq in Hpos as [-> _].
    rewrite list_lookup_fmap in Hx.
    destruct (groups !! j) as [g|] eqn:Hg; [|discriminate].
    injection Hx as <-. by apply Hlookup.
Qed.

(** The closing comprehension of [get_form] turns the list grouped by
    breakpoint into the list by category. *)
Lemma reorder_by_category (groups : list field_group) (breakpoints : list string) :
  length groups = length breakpoints ->
  breakpoints <> [] ->
  reorder (by_breakpoint groups) breakpoints = Ok (by_category groups).
Proof.
  intros Hlen Hne. unfold reorder, floordiv.
  rewrite length_by_breakpoint, Hlen.
  destruct (decide (length breakpoints = 0)) as [Hz|Hnz].
  { by destruct breakpoints. }
  replace (4 * length breakpoints / length breakpoints) with 4
    by (symmetry; by apply Nat.div_mul).
  cbn [bind].
  change (index_pairs 4 (length breakpoints))
    with (((fun j => (0, j)) <$> seq 0 (length breakpoints))
          ++ ((fun j => (1, j)) <$> seq 0 (length breakpoints))
          ++ ((fun j => (2, j)) <$> seq 0 (length breakpoints))
          ++ ((fun j => (3, j)) <$> seq 0 (length breakpoints)) ++ []).
  rewrite app_nil_r, <- Hlen, !comprehension_app.
  rewrite (comprehension_category _ 4 0 _ (width_of <$> groups)).
  2: { apply category_positions. intros j g Hg. apply (by_breakpoint_lookup _ _ _ Hg). }
  rewrite (comprehension_category _ 4 1 _ (offset_of <$> groups)).
  2: { apply category_positions. intros j g Hg. apply (by_breakpoint_lookup _ _ _ Hg). }
  rewrite (comprehension_category _ 4 2 _ (ordering_of <$> groups)).
  2: { apply category_positions. intros j g Hg. apply (by_breakpoint_lookup _ _ _ Hg). }
  rewrite (comprehension_category _ 4 3 _ (responsive_of <$> groups)).
  2: { apply category_positions. intros j g Hg. apply (by_breakpoint_lookup _ _ _ Hg). }
  reflexivity.
Qed.

(** Grouping by category rearranges the fields and neither drops nor
    repeats one. *)
Lemma by_category_permutation (groups : list field_group) :
  Permutation (by_breakpoint groups) (by_category groups).
Proof.
  unfold by_category. induction groups as [|g groups IH]; [constructor|].
  change (by_breakpoint (g :: groups))
    with (width_of g :: offset_of g :: ordering_of g :: responsive_of g
          :: by_breakpoint groups).
  rewrite !fmap_cons.
  set (ws := width_of <$> groups) in *. set (os := offset_of <$> groups) in *.
  set (rs := ordering_of <$> groups) in *. set (vs := responsive_of <$> groups) in *.
  cbn [app]. constructor.
  rewrite <- Permutation_middle. constructor.
  rewrite (app_assoc ws os), <- Permutation_middle. constructor.
  rewrite (app_assoc (ws ++ os) rs), <- Permutation_middle. constructor.
  by rewrite <- !app_assoc.
Qed.

End Reorder.

Section ColumnFormTotal.
Context `{Host}.
Import BootstrapColumnPlugin.

Lemma index_elem_of (bp : string) (l : list string) :
  bp ∈ l -> exists idx, Py.index bp l = Ok idx /\ l !! idx = Some bp.
Proof.
  induction l as [|y l IH]; intros Hin; [by apply elem_of_nil in Hin|].
  simpl. destruct (decide (bp = y)) as [->|Hne]; [by exists 0|].
  apply elem_of_cons in Hin as [?|Hin]; [done|].
  destruct (IH Hin) as (idx & -> & Hidx). by exists (S idx).
Qed.

(** In a list without repetition [index] finds the position itself. *)
Lemma index_NoDup (bp : string) (l : list string) (i : nat) :
  NoDup l -> l !! i = Some bp -> Py.index bp l = Ok i.
Proof.
  intros Hnd. revert i. induction Hnd as [|y l Hy _ IH]; intros i Hi; [done|].
  simpl. destruct i as [|i].
  - injection Hi as ->. by destruct (decide (bp = bp)).
  - simpl in Hi. destruct (decide (bp = y)) as [->|_].
    + exfalso. apply Hy. by eapply list_elem_of_lookup_2.
    + by rewrite (IH _ Hi).
Qed.

Lemma choose_help_text_total (container : gmap string gval) (breakpoints : list string)
    (first : Breakpoint) (last : option Breakpoint) (fl : gval)
    (phrases : string * string * string) :
  container !! "fluid" = Some fl ->
  bounds_configured first ->
  (forall l, last = Some l -> bounds_configured l) ->
  exists text, choose_help_text container breakpoints first last phrases = Ok text.
Proof.
  intros Hfl [(lo1 & hi1 & Hf1) (lo2 & hi2 & Hd1)] Hlast.
  unfold choose_help_text, getitem. rewrite Hfl. simpl.
  destruct last as [l|].
  - destruct (Hlast l eq_refl) as [(lo3 & hi3 & Hf) (lo4 & hi4 & Hd)].
    destruct (truthy fl); [rewrite Hf|rewrite Hd]; simpl; eauto.
  - destruct (decide (1 < length breakpoints)); [|eauto].
    destruct (truthy fl); [rewrite Hf1|rewrite Hd1]; simpl; eauto.
Qed.

Lemma loop_body_total (container : gmap string gval) (breakpoints : list string)
    (fl : gval) (bp : string) :
  container !! "fluid" = Some fl ->
  Forall selectable breakpoints ->
  bp ∈ breakpoints ->
  exists four, loop_body container breakpoints [] bp = Ok four.
Proof.
  intros Hfl Hall Hin.
  destruct (index_elem_of _ _ Hin) as (idx & Hidx & _).
  rewrite Forall_forall in Hall.
  destruct (Hall _ Hin) as (first & Hfirst & Hbounds).
  assert (exists last, next_breakpoint breakpoints idx = Ok last
                       /\ forall l, last = Some l -> bounds_configured l)
    as (last & Hnext & Hlast).
  { unfold next_breakpoint.
    destruct (breakpoints !! (idx + 1)) as [next|] eqn:Hnext.
    - destruct (Hall next) as (l & Hl & Hlb); [by eapply list_elem_of_lookup_2|].
      rewrite Hl. simpl. exists (Some l). split; [done|]. by intros ? [= <-].
    - exists None. split; [done|]. by intros ? [=]. }
  pose proof (fun phrases =>
    choose_help_text_total container breakpoints first last fl phrases Hfl Hbounds Hlast)
    as Hhelp.
  unfold loop_body, try_last. rewrite Hidx. cbn [bind].
  rewrite Hnext. cbn [bind]. rewrite Hfirst. cbn [bind]. unfold turn_fields.
  unfold width_field, offset_field, ordering_field, responsive_field.
  destruct (decide (idx = 0)).
  - repeat match goal with
           | |- context [choose_help_text ?c ?b ?f ?l ?p] =>
               destruct (Hhelp p) as [? ->]; cbn [bind]
           end.
    eauto.
  - repeat match goal with
           | |- context [choose_help_text ?c ?b ?f ?l ?p] =>
               destruct (Hhelp p) as [? ->]; cbn [bind]
           end.
    eauto.
Qed.

Lemma for_each_loop_total (container : gmap string gval) (breakpoints : list string)
    (fl : gval) (l : list string) (acc : list GlossaryField) :
  container !! "fluid" = Some fl ->
  Forall selectable breakpoints ->
  l ⊆ breakpoints ->
  exists fields, for_each (loop_body container breakpoints) l acc = Ok fields.
Proof.
  intros Hfl Hall. revert acc. induction l as [|bp l IH]; intros acc Hsub; simpl; [eauto|].
  destruct (loop_body_total container breakpoints fl bp Hfl Hall) as [four Hfour].
  { apply Hsub. by left. }
  rewrite (loop_body_ok _ _ acc bp four Hfour).
  cbn [bind]. apply IH. intros x Hx. apply Hsub. by right.
Qed.

(** [get_form] on a well-configured container: the loop yields one group
    of fields per breakpoint and the result lists them by category. *)
Lemma get_form_groups (ancestors : list plugin) (container : plugin)
    (breakpoints : list string) (fl : gval) :
  find_container ancestors = Ok (Some container) ->
  glossary container !! "breakpoints" = Some (VList breakpoints) ->
  glossary container !! "fluid" = Some fl ->
  breakpoints <> [] ->
  Forall selectable breakpoints ->
  exists groups,
    Forall2 (fun bp g =>
               loop_body (glossary container) breakpoints [] bp
               = Ok [width_of g; offset_of g; ordering_of g; responsive_of g])
      breakpoints groups
    /\ for_each (loop_body (glossary container) breakpoints) breakpoints []
       = Ok (by_breakpoint groups)
    /\ get_form ancestors = Ok (by_category groups).
Proof.
  intros Hfind Hbps Hfl Hne Hall.
  destruct (for_each_loop_total (glossary container) breakpoints fl breakpoints []
              Hfl Hall) as [fields Hloop]; [done|].
  destruct (loop_groups _ _ _ _ _ Hloop) as (groups & Hgroups & ->).
  exists groups. split; [done|]. split; [done|].
  unfold get_form, getitem. rewrite Hfind. cbn [bind container_glossary].
  rewrite Hbps. cbn [bind iter]. rewrite Hloop. cbn [bind app].
  apply reorder_by_category; [|done].
  symmetry. by eapply Forall2_length.
Qed.

End ColumnFormTotal.

Section Choices.
Context `{Host}.
Import BootstrapColumnPlugin.

Lemma elem_of_range (i : Z) (a b : nat) :
  i ∈ Py.range a b -> exists n, i = Z.of_nat n /\ a <= n < b.
Proof.
  unfold Py.range. intros (n & -> & Hn)%list_elem_of_fmap.
  apply elem_of_seq in Hn. exists n. split; [done|lia].
Qed.

Lemma unit_text_in_range (n : nat) :
  n < 13 ->
  unit_text (Z.of_nat n)
  = Py.format (ungettext_lazy "{} unit" "{} units" (NInt (Z.of_nat n))) [Py.str (Z.of_nat n)].
Proof. intros Hn. do 13 (destruct n as [|n]; [reflexivity|]). lia. Qed.

Lemma last_char_app (u s : string) :
  s <> "" -> last_char (u +:+ s) = last_char s.
Proof.
  intros Hs. induction u as [|c u IH]; [reflexivity|].
  change (String c u +:+ s) with (String c (u +:+ s)).
  cbn [last_char]. rewrite IH.
  destruct (u +:+ s) eqn:Hus; [|reflexivity].
  destruct u; [|discriminate]. by destruct s.
Qed.

Lemma unit_text_last_char (n : nat) :
  n < 13 ->
  last_char (unit_text (Z.of_nat n)) = Some "t"%char
  \/ last_char (unit_text (Z.of_nat n)) = Some "s"%char.
Proof.
  intros Hn. rewrite (unit_text_in_range n Hn). unfold ungettext_lazy.
  destruct (plural _).
  - right. change (Py.format "{} units" [Py.str (Z.of_nat n)])
      with (Py.str (Z.of_nat n) +:+ " units").
    by rewrite last_char_app.
  - left. change (Py.format "{} unit" [Py.str (Z.of_nat n)])
      with (Py.str (Z.of_nat n) +:+ " unit").
    by rewrite last_char_app.
Qed.

Lemma not_inherit_label (lab : string) :
  last_char lab <> Some "e"%char -> lab <> "Inherit from above".
Proof. intros Hlast ->. by apply Hlast. Qed.

Lemma fixed_column_label (u : string) :
  Py.format "{} fixed column" [u] <> "Inherit from above".
Proof.
  apply not_inherit_label.
  change (Py.format "{} fixed column" [u]) with (u +:+ " fixed column").
  by rewrite last_char_app.
Qed.

(** No width choice has the empty value or the inherit label. *)
Lemma width_choices_explicit (bp v lab : string) :
  (v, lab) ∈ width_choices bp -> v <> "" /\ lab <> "Inherit from above".
Proof.
  unfold width_choices.
  destruct (decide (bp = "xs")) as [_|_];
    rewrite !elem_of_app, !list_elem_of_singleton, list_elem_of_fmap;
    intros [[= -> ->]|[(i & [= -> ->] & _)|[= -> ->]]];
    (split; [discriminate|]); first [discriminate | apply fixed_column_label].
Qed.

(** The offset choices of the first breakpoint: the empty value means no
    offset and no choice is the inherit entry. *)
Lemma offset_choices_first (bp v lab : string) :
  head (offset_choices 0 bp) = Some ("", "No offset")
  /\ ((v, lab) ∈ offset_choices 0 bp ->
      lab <> "Inherit from above" /\ (v = "" -> lab = "No offset")).
Proof.
  unfold offset_choices.
  destruct (decide (0 = 0)) as [_|?]; [|done]. cbn beta iota.
  split; [by destruct (decide (bp = "xs"))|].
  destruct (decide (bp = "xs")) as [_|_];
    rewrite elem_of_app, list_elem_of_singleton, list_elem_of_fmap;
    intros [[= -> ->]|(i & [= -> ->] & (n & -> & Hn)%elem_of_range)];
    try (split; [discriminate|done]).
  - split; [|discriminate]. apply not_inherit_label.
    destruct (unit_text_last_char n) as [-> | ->]; [lia|discriminate..].
  - split; [|discriminate]. apply not_inherit_label.
    destruct (unit_text_last_char n) as [-> | ->]; [lia|discriminate..].
Qed.

(** The offset choices of a later breakpoint start with the inherit entry. *)
Lemma offset_choices_later (idx : nat) (bp : string) :
  idx <> 0 -> head (offset_choices idx bp) = Some ("", "Inherit from above").
Proof.
  intros Hidx. unfold offset_choices.
  destruct (decide (idx = 0)); [done|]. by destruct (decide (bp = "xs")).
Qed.

Lemma width_field_inv (idx : nat) (bp devices : string)
    (help : string * string * string -> result string) (w : GlossaryField) :
  width_field idx bp devices help = Ok w ->
  gf_name w = bp +:+ "-column-width"
  /\ (idx = 0 -> gf_widget w = Select (width_choices bp))
  /\ (idx <> 0 -> gf_widget w = Select (("", "Inherit from above") :: width_choices bp)
                  /\ gf_initial w = Some "").
Proof.
  unfold width_field. destruct (decide (idx = 0)); intros Hw;
    (case_bind; [|discriminate..]); injection Hw as <-; cbn [gf_name gf_widget gf_initial];
    (split; [reflexivity|]); split; done.
Qed.

Lemma offset_field_inv (idx : nat) (bp devices : string)
    (help : string * string * string -> result string) (o : GlossaryField) :
  offset_field idx bp devices help = Ok o ->
  gf_name o = bp +:+ "-column-offset" /\ gf_widget o = Select (offset_choices idx bp).
Proof.
  unfold offset_field. intros Ho. case_bind; [|discriminate..].
  injection Ho as <-. by split.
Qed.

Lemma ordering_field_inv (bp devices : string)
    (help : string * string * string -> result string) (r : GlossaryField) :
  ordering_field bp devices help = Ok r -> gf_name r = bp +:+ "-column-ordering".
Proof.
  unfold ordering_field. intros Hr. case_bind; [|discriminate..]. by injection Hr as <-.
Qed.

Lemma responsive_field_inv (bp devices : string)
    (help : string * string * string -> result string) (v : GlossaryField) :
  responsive_field bp devices help = Ok v -> gf_name v = bp +:+ "-responsive-utils".
Proof.
  unfold responsive_field. intros Hv. case_bind; [|discriminate..]. by injection Hv as <-.
Qed.

End Choices.

Section ColumnFormTheorems.
Context `{Host}.
Import BootstrapColumnPlugin.

Lemma group_names (container : gmap string gval) (breakpoints l : list string)
    (groups : list field_group) :
  Forall2 (fun bp g =>
             loop_body container breakpoints [] bp
             = Ok [width_of g; offset_of g; ordering_of g; responsive_of g])
    l groups ->
  Forall2 (fun bp g =>
             gf_name (width_of g) = bp +:+ "-column-width"
             /\ gf_name (offset_of g) = bp +:+ "-column-offset"
             /\ gf_name (ordering_of g) = bp +:+ "-column-ordering"
             /\ gf_name (responsive_of g) = bp +:+ "-responsive-utils")
    l groups.
Proof.
  intros Hgroups. eapply Forall2_impl; [exact Hgroups|]. intros bp g Hbody. cbn beta in Hbody.
  destruct (loop_body_inv _ _ _ _ Hbody)
    as (idx & last & first & w & o & r & v & [= <- <- <- <-] & _ & _ & _ & Hw & Ho & Hr & Hv).
  apply width_field_inv in Hw as [-> _].
  apply offset_field_inv in Ho as [-> _].
  apply ordering_field_inv in Hr as ->.
  by apply responsive_field_inv in Hv as ->.
Qed.

(** C6: on a container with a non-empty selection, [get_form] returns the
    fields by category, the widths of all breakpoints in their order, then
    the offsets, the orderings and the visibilities; this list is a
    permutation of the one the loop builds breakpoint by breakpoint and
    has four fields per breakpoint. *)
Theorem get_form_by_category (ancestors : list plugin) (container : plugin)
    (breakpoints : list string) (fl : gval) :
  find_container ancestors = Ok (Some container) ->
  glossary container !! "breakpoints" = Some (VList breakpoints) ->
  glossary container !! "fluid" = Some fl ->
  breakpoints <> [] ->
  Forall selectable breakpoints ->
  exists groups,
    get_form ancestors
    = Ok ((width_of <$> groups) ++ (offset_of <$> groups)
          ++ (ordering_of <$> groups) ++ (responsive_of <$> groups))
    /\ for_each (loop_body (glossary container) breakpoints) breakpoints []
       = Ok (by_breakpoint groups)
    /\ Forall2 (fun bp g =>
                  gf_name (width_of g) = bp +:+ "-column-width"
                  /\ gf_name (offset_of g) = bp +:+ "-column-offset"
                  /\ gf_name (ordering_of g) = bp +:+ "-column-ordering"
                  /\ gf_name (responsive_of g) = bp +:+ "-responsive-utils")
         breakpoints groups
    /\ Permutation (by_breakpoint groups) (by_category groups)
    /\ length (by_category groups) = 4 * length breakpoints.
Proof.
  intros Hfind Hbps Hfl Hne Hall.
  destruct (get_form_groups _ _ _ _ Hfind Hbps Hfl Hne Hall)
    as (groups & Hgroups & Hloop & Hform).
  exists groups. repeat split; try done.
  - by eapply group_names.
  - apply by_category_permutation.
  - rewrite length_by_category. f_equal. symmetry. by eapply Forall2_length.
Qed.

(** C4: on a container whose selection is non-empty and repeats no name,
    the width choices of the first breakpoint hold neither an empty value
    nor the inherit entry, and its offset choices start with the empty
    value labelled "No offset" and hold no inherit entry; for every later
    breakpoint the width and the offset choices start with the empty value
    labelled "Inherit from above", which is the width field's initial
    value. *)
Theorem inherit_only_after_first (ancestors : list plugin) (container : plugin)
    (breakpoints : list string) (fl : gval) :
  find_container ancestors = Ok (Some container) ->
  glossary container !! "breakpoints" = Some (VList breakpoints) ->
  glossary container !! "fluid" = Some fl ->
  breakpoints <> [] ->
  NoDup breakpoints ->
  Forall selectable breakpoints ->
  exists fields,
    get_form ancestors = Ok fields
    /\ forall i bp, breakpoints !! i = Some bp ->
       exists w o,
         fields !! i = Some w
         /\ fields !! (length breakpoints + i) = Some o
         /\ gf_name w = bp +:+ "-column-width"
         /\ gf_name o = bp +:+ "-column-offset"
         /\ (i = 0 ->
             (forall v lab, (v, lab) ∈ widget_choices (gf_widget w) ->
                            v <> "" /\ lab <> "Inherit from above")
             /\ head (widget_choices (gf_widget o)) = Some ("", "No offset")
             /\ (forall v lab, (v, lab) ∈ widget_choices (gf_widget o) ->
                               lab <> "Inherit from above" /\ (v = "" -> lab = "No offset")))
         /\ (i <> 0 ->
             head (widget_choices (gf_widget w)) = Some ("", "Inherit from above")
             /\ gf_initial w = Some ""
             /\ head (widget_choices (gf_widget o)) = Some ("", "Inherit from above")).
Proof.
  intros Hfind Hbps Hfl Hne Hnd Hall.
  destruct (get_form_groups _ _ _ _ Hfind Hbps Hfl Hne Hall)
    as (groups & Hgroups & _ & Hform).
  exists (by_category groups). split; [done|].
  intros i bp Hi.
  destruct (Forall2_lookup_l _ _ _ _ _ Hgroups Hi) as (g & Hg & Hbody).
  pose proof (Forall2_length _ _ _ Hgroups) as Hlen.
  pose proof (lookup_lt_Some _ _ _ Hg) as Hlt.
  destruct (loop_body_inv _ _ _ _ Hbody)
    as (idx & last & first & w & o & r & v & [= <- <- <- <-] & Hidx & _ & _ & Hw & Ho & _).
  rewrite (index_NoDup _ _ _ Hnd Hi) in Hidx. injection Hidx as <-.
  apply width_field_inv in Hw as (Hwn & Hw0 & Hw1).
  apply offset_field_inv in Ho as (Hon & Hoc).
  exists (width_of g), (offset_of g). unfold by_category.
  split; [|split; [|split; [done|split; [done|split]]]].
  - rewrite lookup_app_l by (by rewrite length_fmap).
    by rewrite list_lookup_fmap, Hg.
  - rewrite lookup_app_r by (rewrite length_fmap; lia).
    rewrite length_fmap, Hlen, Nat.add_comm, Nat.add_sub.
    rewrite lookup_app_l by (by rewrite length_fmap).
    by rewrite list_lookup_fmap, Hg.
  - intros ->. rewrite (Hw0 eq_refl), Hoc. cbn [widget_choices].
    split; [apply width_choices_explicit|].
    split; [apply (offset_choices_first bp "" "")|].
    intros val lab. apply offset_choices_first.
  - intros Hi0. destruct (Hw1 Hi0) as [-> ->]. rewrite Hoc. cbn [widget_choices].
    split; [reflexivity|]. split; [reflexivity|]. by apply offset_choices_later.
Qed.

(** C7: for the breakpoint at position [i] of a selection without
    repetition, the neighbour is the entry at [i + 1]. With a neighbour,
    the help text is the first phrase filled with the upper bound of the
    neighbour's row; without one and with more than one selected
    breakpoint it is the second phrase filled with the lower bound of the
    breakpoint's own row; with a single selected breakpoint it is the
    third phrase. *)
Theorem help_text_by_neighbours (container : gmap string gval)
    (breakpoints : list string) (i : nat) (bp : string) (first : Breakpoint)
    (fl : gval) (phrases : string * string * string) :
  NoDup breakpoints ->
  breakpoints !! i = Some bp ->
  container !! "fluid" = Some fl ->
  let bs4_breakpoints := if truthy fl then fluid_bounds else default_bounds in
  Py.index bp breakpoints = Ok i
  /\ (forall next last bound px,
        breakpoints !! (i + 1) = Some next ->
        getattr next = Ok last ->
        bounds_getitem bs4_breakpoints last = Ok bound ->
        bound_max bound = Some px ->
        next_breakpoint breakpoints i = Ok (Some last)
        /\ choose_help_text container breakpoints first (Some last) phrases
           = Ok (Py.format phrases.1.1 [Py.str px]))
  /\ (breakpoints !! (i + 1) = None ->
      next_breakpoint breakpoints i = Ok None
      /\ (forall bound px,
            1 < length breakpoints ->
            bounds_getitem bs4_breakpoints first = Ok bound ->
            bound_min bound = Some px ->
            choose_help_text container breakpoints first None phrases
            = Ok (Py.format phrases.1.2 [Py.str px]))
      /\ (length breakpoints = 1 ->
          choose_help_text container breakpoints first None phrases = Ok phrases.2)).
Proof.
  intros Hnd Hi Hfl table. split; [by apply index_NoDup|]. split.
  - intros next last bound px Hnext Hlast Hbound Hpx. split.
    + unfold next_breakpoint. rewrite Hnext, Hlast. reflexivity.
    + unfold choose_help_text, getitem. rewrite Hfl. cbn [bind].
      fold table. rewrite Hbound. cbn [bind]. rewrite Hpx. reflexivity.
  - intros Hnone. split; [|split].
    + unfold next_breakpoint. by rewrite Hnone.
    + intros bound px Hlen Hbound Hpx.
      unfold choose_help_text, getitem. rewrite Hfl. cbn [bind].
      destruct (decide (1 < length breakpoints)); [|lia].
      fold table. rewrite Hbound. cbn [bind]. rewrite Hpx. reflexivity.
    + intros Hlen. unfold choose_help_text, getitem. rewrite Hfl. cbn [bind].
      destruct (decide (1 < length breakpoints)); [lia|reflexivity].
Qed.

End ColumnFormTheorems.

(** ** The theorems on a container that selects sm and lg *)

Section SampleForm.
Existing Instance Sample.host.
Import BootstrapColumnPlugin.

Lemma sample_selectable : Forall selectable ["sm"; "lg"].
Proof.
  repeat constructor.
  - exists sm. split; [reflexivity|]. split; do 2 eexists; reflexivity.
  - exists lg. split; [reflexivity|]. split; do 2 eexists; reflexivity.
Qed.

Lemma get_form_by_category_witness :
  exists groups,
    get_form sample_ancestors
    = Ok ((width_of <$> groups) ++ (offset_of <$> groups)
          ++ (ordering_of <$> groups) ++ (responsive_of <$> groups))
    /\ for_each (loop_body (glossary sample_container) ["sm"; "lg"]) ["sm"; "lg"] []
       = Ok (by_breakpoint groups)
    /\ Forall2 (fun bp g =>
                  gf_name (width_of g) = bp +:+ "-column-width"
                  /\ gf_name (offset_of g) = bp +:+ "-column-offset"
                  /\ gf_name (ordering_of g) = bp +:+ "-column-ordering"
                  /\ gf_name (responsive_of g) = bp +:+ "-responsive-utils")
         ["sm"; "lg"] groups
    /\ Permutation (by_breakpoint groups) (by_category groups)
    /\ length (by_category groups) = 8.
Proof.
  exact (get_form_by_category sample_ancestors sample_container ["sm"; "lg"] (VBool false)
           eq_refl eq_refl eq_refl ltac:(discriminate) sample_selectable).
Defined.

Lemma inherit_only_after_first_witness :
  exists fields,
    get_form sample_ancestors = Ok fields
    /\ (exists w o,
          fields !! 0 = Some w /\ fields !! 2 = Some o
          /\ gf_name w = "sm-column-width" /\ gf_name o = "sm-column-offset"
          /\ (forall v lab, (v, lab) ∈ widget_choices (gf_widget w) ->
                            v <> "" /\ lab <> "Inherit from above")
          /\ head (widget_choices (gf_widget o)) = Some ("", "No offset"))
    /\ (exists w o,
          fields !! 1 = Some w /\ fields !! 3 = Some o
          /\ gf_name w = "lg-column-width" /\ gf_name o = "lg-column-offset"
          /\ head (widget_choices (gf_widget w)) = Some ("", "Inherit from above")
          /\ gf_initial w = Some ""
          /\ head (widget_choices (gf_widget o)) = Some ("", "Inherit from above")).
Proof.
  destruct (inherit_only_after_first sample_ancestors sample_container ["sm"; "lg"]
              (VBool false) eq_refl eq_refl eq_refl ltac:(discriminate)
              ltac:(refine (bool_decide_unpack _ _); vm_compute; exact I)
              sample_selectable) as (fields & Hform & Hfields).
  exists fields. split; [exact Hform|]. split.
  - destruct (Hfields 0 "sm" eq_refl) as (w & o & Hw & Ho & Hwn & Hon & Hfirst & _).
    destruct (Hfirst eq_refl) as (Hwc & Hoh & _).
    exists w, o. repeat split; try assumption; by apply (Hwc v lab).
  - destruct (Hfields 1 "lg" eq_refl) as (w & o & Hw & Ho & Hwn & Hon & _ & Hlater).
    destruct (Hlater ltac:(lia)) as (Hwh & Hwi & Hoh).
    exists w, o. repeat split; assumption.
Defined.

Lemma help_text_by_neighbours_witness :
  choose_help_text (glossary sample_container) ["sm"; "lg"] sm (Some lg)
    ("Offset width for devices narrower than {:.0f} pixels.",
     "Offset width for devices wider than {:.0f} pixels.",
     "Offset width for all devices.")
  = Ok "Offset width for devices narrower than 1200 pixels."
  /\ choose_help_text (glossary sample_container) ["sm"; "lg"] lg None
       ("Offset width for devices narrower than {:.0f} pixels.",
        "Offset width for devices wider than {:.0f} pixels.",
        "Offset width for all devices.")
     = Ok "Offset width for devices wider than 992 pixels."
  /\ choose_help_text (glossary sample_container) ["md"] md None
       ("Offset width for devices narrower than {:.0f} pixels.",
        "Offset width for devices wider than {:.0f} pixels.",
        "Offset width for all devices.")
     = Ok "Offset width for all devices.".
Proof.
  split; [|split].
  - exact (proj2 (proj1 (proj2
             (help_text_by_neighbours (glossary sample_container) ["sm"; "lg"] 0 "sm" sm
                (VBool false) _
                ltac:(refine (bool_decide_unpack _ _); vm_compute; exact I)
                eq_refl eq_refl))
             "lg" lg (mkBound (Some 992%Z) (Some 1200%Z)) 1200%Z
             eq_refl eq_refl eq_refl eq_refl)).
  - exact (proj1 (proj2 (proj2 (proj2
             (help_text_by_neighbours (glossary sample_container) ["sm"; "lg"] 1 "lg" lg
                (VBool false) _
                ltac:(refine (bool_decide_unpack _ _); vm_compute; exact I)
                eq_refl eq_refl)) eq_refl))
             (mkBound (Some 992%Z) (Some 1200%Z)) 992%Z ltac:(simpl; lia) eq_refl eq_refl).
  - exact (proj2 (proj2 (proj2 (proj2
             (help_text_by_neighbours (glossary sample_container) ["md"] 0 "md" md
                (VBool false) _
                ltac:(refine (bool_decide_unpack _ _); vm_compute; exact I)
                eq_refl eq_refl)) eq_refl)) eq_refl).
Defined.

End SampleForm.

(** A name that the list repeats is looked up at its first position: the
    third entry of this selection gets the fields of a first breakpoint. *)
Lemma repeated_name_counts_as_first :
  exists fields w,
    @BootstrapColumnPlugin.get_form Sample.host repeating_ancestors = Ok fields
    /\ fields !! 2 = Some w
    /\ gf_name w = "sm-column-width"
    /\ head (widget_choices (gf_widget w)) = Some ("col-sm", "Flex column").
Proof. do 2 eexists. split; [by vm_compute|]. by split. Qed.

(** * Further properties of the code *)

(** ** The choices of the breakpoint widget *)

Section WidgetChoicesProperties.
Context `{Host}.

Lemma imap_values {A} (f : nat -> A -> string * string) (g : A -> string) (l : list A) :
  (forall i x, (f i x).1 = g x) -> (imap f l).*1 = g <$> l.
Proof.
  revert f. induction l as [|x l IH]; intros f Hf; [reflexivity|].
  cbn [imap fmap list_fmap]. rewrite Hf. f_equal. apply IH. intros i y. apply Hf.
Qed.

(** X1: the widget offers one choice per row of the bounds table, in the order
    of the table, and the value of a choice is the name of its breakpoint. *)
Theorem widget_choices_follow_table :
  get_widget_choices.*1 = BreakpointEnum.name <$> fluid_bounds.*1
  /\ length get_widget_choices = length fluid_bounds.
Proof.
  unfold get_widget_choices. split.
  - rewrite <- list_fmap_compose. apply imap_values.
    intros i [bp bound]. unfold widget_choice.
    by repeat destruct (decide _).
  - apply length_imap.
Qed.

(** X2: the text of a choice shows the bounds by the position of its row: the
    first row only its upper bound (also when it is the only row), the last
    of several rows only its lower bound, a row in between both. *)
Theorem widget_choice_text_by_position (i : nat) (bp : Breakpoint) (bound : Bound) :
  fluid_bounds !! i = Some (bp, bound) ->
  exists text,
    get_widget_choices !! i = Some (BreakpointEnum.name bp, text)
    /\ (i = 0 ->
        text = label bp +:+ " (<" +:+ format_bound (bound_max bound) +:+ "px)")
    /\ (i <> 0 -> i = length fluid_bounds - 1 ->
        text = label bp +:+ " (≥" +:+ format_bound (bound_min bound) +:+ "px)")
    /\ (i <> 0 -> i <> length fluid_bounds - 1 ->
        text = label bp +:+ " (≥" +:+ format_bound (bound_min bound) +:+ "px and <"
               +:+ format_bound (bound_max bound) +:+ "px)").
Proof.
  intros Hrow. unfold get_widget_choices.
  rewrite list_lookup_imap, Hrow. cbn [fmap option_fmap option_map widget_choice].
  destruct (decide (i = 0)) as [Hi|Hi].
  - eexists. split; [reflexivity|]. split; [|split]; [|done..].
    intros _. reflexivity.
  - destruct (decide (i = length fluid_bounds - 1)) as [Hl|Hl];
      (eexists; split; [reflexivity|]); (split; [done|]); split; try done;
      intros _ _; reflexivity.
Qed.

End WidgetChoicesProperties.

Lemma widget_choice_text_by_position_witness :
  exists text,
    @get_widget_choices Sample.host !! 4 = Some ("xl", text)
    /\ (4 = 0 -> text = "Large Desktops" +:+ " (<" +:+ "1980" +:+ "px)")
    /\ (4 <> 0 -> 4 = 5 - 1 -> text = "Large Desktops" +:+ " (≥" +:+ "1200" +:+ "px)")
    /\ (4 <> 0 -> 4 <> 5 - 1 ->
        text = "Large Desktops" +:+ " (≥" +:+ "1200" +:+ "px and <" +:+ "1980" +:+ "px)").
Proof.
  exact (@widget_choice_text_by_position Sample.host 4 xl
           (mkBound (Some 1200%Z) (Some 1980%Z)) eq_refl).
Defined.

(** ** The container's classes and identifier *)

Section ContainerFluid.
Context `{Host}.

(** X3: the CSS class and the identifier agree on the fluid flag: a true flag
    gives the class container-fluid and an identifier that starts with
    "(fluid) "; a false or missing flag gives the class container and an
    identifier without the marker. The classes of the base class stay in
    front. *)
Theorem container_fluid_class_and_identifier (super_css_classes : list string)
    (obj : plugin) :
  let devices := Py.join ", " (label <$> fluid_bounds.*1) in
  let selection := if truthy_get (glossary obj) "breakpoints"
                   then "for " +:+ devices else "" in
  (truthy_get (glossary obj) "fluid" = true
   /\ BootstrapContainerPlugin.get_css_classes super_css_classes obj
      = super_css_classes ++ ["container-fluid"]
   /\ BootstrapContainerPlugin.get_identifier obj
      = format_html (super_get_identifier obj) ("(fluid) " +:+ selection))
  \/ (truthy_get (glossary obj) "fluid" = false
      /\ BootstrapContainerPlugin.get_css_classes super_css_classes obj
         = super_css_classes ++ ["container"]
      /\ BootstrapContainerPlugin.get_identifier obj
         = format_html (super_get_identifier obj) selection).
Proof.
  intros devices selection. subst selection devices.
  unfold BootstrapContainerPlugin.get_css_classes, BootstrapContainerPlugin.get_identifier.
  destruct (truthy_get (glossary obj) "fluid"); [left|right];
    (split; [reflexivity|]); (split; [reflexivity|]);
    (destruct (truthy_get (glossary obj) "breakpoints"); [|reflexivity]).
  - change (Py.format "{0}for {1}" ["(fluid) "; Py.join ", " (label <$> fluid_bounds.*1)])
      with ("(fluid) " +:+ "for " +:+ Py.join ", " (label <$> fluid_bounds.*1) +:+ "").
    by rewrite app_empty_r.
  - change (Py.format "{0}for {1}" [""; Py.join ", " (label <$> fluid_bounds.*1)])
      with ("for " +:+ Py.join ", " (label <$> fluid_bounds.*1) +:+ "").
    by rewrite app_empty_r.
Qed.

End ContainerFluid.

(** ** The row's seeded width *)

(** X4: [save_model] fails in the order of its lines: a complete glossary
    without breakpoints is a [KeyError] and an empty list an [IndexError],
    whatever the count; a count of zero is a [ZeroDivisionError] once the
    first breakpoint is found. *)
Theorem save_model_errors (obj : plugin) (wanted_children : Z) :
  (complete_glossary obj !! "breakpoints" = None ->
   save_model obj wanted_children = Raise (KeyError "breakpoints"))
  /\ (complete_glossary obj !! "breakpoints" = Some (VList []) ->
      save_model obj wanted_children = Raise IndexError)
  /\ (forall narrowest rest,
        complete_glossary obj !! "breakpoints" = Some (VList (narrowest :: rest)) ->
        save_model obj 0 = Raise ZeroDivisionError).
Proof.
  unfold save_model, getitem. split; [|split].
  - by intros ->.
  - by intros ->.
  - by intros narrowest rest ->.
Qed.

Lemma save_model_errors_witness :
  save_model (Sample.instance RowClass ∅ ∅) 0 = Raise (KeyError "breakpoints")
  /\ save_model (Sample.instance RowClass ∅ {[ "breakpoints" := VList [] ]}) 0
     = Raise IndexError
  /\ save_model (Sample.instance RowClass ∅ {[ "breakpoints" := VList ["md"] ]}) 0
     = Raise ZeroDivisionError.
Proof.
  split; [|split].
  - exact (proj1 (save_model_errors (Sample.instance RowClass ∅ ∅) 0) eq_refl).
  - exact (proj1 (proj2 (save_model_errors
             (Sample.instance RowClass ∅ {[ "breakpoints" := VList [] ]}) 0)) eq_refl).
  - exact (proj2 (proj2 (save_model_errors
             (Sample.instance RowClass ∅ {[ "breakpoints" := VList ["md"] ]}) 0))
             "md" [] eq_refl).
Defined.

(** X5: for every positive count the seeded width is the largest number of
    units that fits the count into the 12 units of the grid: the widths of
    all the columns never exceed 12, one more unit each would, and more than
    12 columns are seeded with a width of 0. *)
Theorem seeded_width_fits_grid (wanted_children : Z) :
  (0 < wanted_children)%Z ->
  exists w,
    column_width wanted_children = Ok w
    /\ (0 <= w)%Z
    /\ (wanted_children * w <= 12 < wanted_children * (w + 1))%Z
    /\ ((12 < wanted_children)%Z -> w = 0%Z)
    /\ forall narrowest,
         child_glossary narrowest w !! (narrowest +:+ "-column-width")
         = Some (VStr ("col-" +:+ narrowest +:+ "-" +:+ Py.str w)).
Proof.
  intros Hpos. exists (12 / wanted_children)%Z.
  split; [|split; [|split; [|split]]].
  - unfold column_width. destruct (decide (wanted_children = 0%Z)); [lia|reflexivity].
  - apply Z.div_pos; lia.
  - pose proof (Z.mul_div_le 12 wanted_children Hpos).
    pose proof (Z.mul_succ_div_gt 12 wanted_children Hpos). lia.
  - intros Hmany. apply Z.div_small. lia.
  - intros narrowest. apply child_glossary_lookup.
Qed.

Lemma seeded_width_fits_grid_witness :
  exists w,
    column_width 5 = Ok w
    /\ (0 <= w)%Z
    /\ (5 * w <= 12 < 5 * (w + 1))%Z
    /\ ((12 < 5)%Z -> w = 0%Z)
    /\ forall narrowest,
         child_glossary narrowest w !! (narrowest +:+ "-column-width")
         = Some (VStr ("col-" +:+ narrowest +:+ "-" +:+ Py.str w)).
Proof. exact (seeded_width_fits_grid 5 ltac:(lia)). Defined.

(** ** The errors of the column form *)

Section ColumnFormErrors.
Context `{Host}.
Import BootstrapColumnPlugin.

Lemma index_raise (x : string) (l : list string) (e : exn) :
  Py.index x l = Raise e -> e = ValueError.
Proof.
  induction l as [|y l IH]; simpl; [by intros [= <-]|].
  destruct (decide (x = y)); [discriminate|].
  destruct (Py.index x l); [discriminate| |discriminate]. intros [= <-]. by apply IH.
Qed.

Lemma getattr_raise (s : string) (e : exn) :
  getattr s = Raise e -> e = AttributeError.
Proof.
  unfold getattr. destruct (list_find _ _) as [[? ?]|]; [discriminate|].
  destruct (other_attribute s); [discriminate|]. by intros [= <-].
Qed.

Lemma next_breakpoint_raise (l : list string) (idx : nat) (e : exn) :
  next_breakpoint l idx = Raise e -> e = AttributeError.
Proof.
  unfold next_breakpoint. destruct (l !! (idx + 1)); [|discriminate].
  destruct (getattr s) eqn:Hg; [discriminate| |discriminate].
  intros [= <-]. by eapply getattr_raise.
Qed.

Lemma try_last_raise (l : list string) (bp : string) (e : exn) :
  try_last l bp = Raise e -> e = ValueError \/ e = AttributeError.
Proof.
  unfold try_last.
  destruct (Py.index bp l) as [idx| |] eqn:Hidx; cbn [bind];
    [|intros [= <-]; left; by eapply index_raise|discriminate].
  destruct (next_breakpoint l idx) as [last| |] eqn:Hnext; cbn [bind];
    [discriminate| |discriminate].
  intros [= <-]. right. by eapply next_breakpoint_raise.
Qed.

Lemma bounds_getitem_raise (table : list (Breakpoint * Bound)) (bp : Breakpoint) (e : exn) :
  bounds_getitem table bp = Raise e -> exists key, e = KeyError key.
Proof.
  induction table as [|[k b] table IH]; simpl; [intros [= <-]; eauto|].
  destruct (decide (k = bp)); [discriminate|done].
Qed.

Lemma choose_help_text_raise (container : gmap string gval) (breakpoints : list string)
    (first : Breakpoint) (last : option Breakpoint) (phrases : string * string * string)
    (e : exn) :
  choose_help_text container breakpoints first last phrases = Raise e ->
  (exists key, e = KeyError key) \/ e = TypeError.
Proof.
  unfold choose_help_text, getitem.
  destruct (container !! "fluid") as [fl|]; [|intros [= <-]; eauto]. cbn [bind].
  assert (forall table bp (sel : Bound -> option Z) (k : string -> result string),
            (forall px, k px <> Raise e) ->
            (let* bound := bounds_getitem table bp in
             let* px := format_0f (sel bound) in k px) = Raise e ->
            (exists key, e = KeyError key) \/ e = TypeError) as Hrow.
  { intros table bp sel k Hk.
    destruct (bounds_getitem table bp) as [bound|e'|] eqn:Hb; cbn [bind].
    - destruct (sel bound); cbn [bind format_0f]; [by intros ?%Hk|intros [= <-]; auto].
    - intros [= <-]. left. by eapply bounds_getitem_raise.
    - discriminate. }
  destruct last as [last|].
  - apply Hrow. discriminate.
  - destruct (decide (1 < length breakpoints)); [|discriminate].
    apply Hrow. discriminate.
Qed.

Lemma loop_body_raise (container : gmap string gval) (breakpoints : list string)
    (acc : list GlossaryField) (bp : string) (e : exn) :
  loop_body container breakpoints acc bp = Raise e -> loop_error e.
Proof.
  unfold loop_body, finally_pending, loop_error.
  destruct (try_last breakpoints bp) as [[idx last]|pending|what] eqn:Htry.
  - destruct (getattr bp) as [first|e'|] eqn:Hfirst; cbn [bind];
      [|intros [= <-]; right; left; by eapply getattr_raise|discriminate].
    assert (forall phrases,
              choose_help_text container breakpoints first last phrases = Raise e ->
              e = ValueError \/ e = AttributeError \/ (exists key, e = KeyError key)
              \/ e = TypeError \/ e = UnboundLocalError)
      as Hhelp.
    { intros phrases [?|?]%choose_help_text_raise; auto. }
    unfold turn_fields, width_field, offset_field, ordering_field, responsive_field.
    destruct (decide (idx = 0));
      repeat match goal with
             | |- context [bind (choose_help_text ?c ?b ?f ?l ?p) _] =>
                 destruct (choose_help_text c b f l p) eqn:?; cbn [bind];
                 [|intros [= <-]; eapply Hhelp; eassumption|discriminate]
             end; discriminate.
  - apply try_last_raise in Htry.
    destruct (getattr bp) as [first|e'|] eqn:Hfirst.
    + destruct (last_assigned acc); intros [= <-]; tauto.
    + intros [= <-]. right. left. by eapply getattr_raise.
    + destruct (last_assigned acc); [discriminate|]. intros [= <-]. tauto.
  - destruct (getattr bp) as [first|e'|] eqn:Hfirst; [discriminate| |discriminate].
    intros [= <-]. right. left. by eapply getattr_raise.
Qed.

Lemma for_each_loop_raise (container : gmap string gval) (breakpoints l : list string)
    (acc : list GlossaryField) (e : exn) :
  for_each (loop_body container breakpoints) l acc = Raise e -> loop_error e.
Proof.
  revert acc. induction l as [|bp l IH]; intros acc; simpl; [discriminate|].
  destruct (loop_body container breakpoints acc bp) eqn:Hbody; cbn [bind].
  - apply IH.
  - intros [= <-]. by eapply loop_body_raise.
  - discriminate.
Qed.

Lemma comprehension_raise (fields : list GlossaryField) (per : nat)
    (pairs : list (nat * nat)) (e : exn) :
  comprehension (fun i j => list_getitem fields (i + per * j)) pairs = Raise e ->
  e = IndexError.
Proof.
  induction pairs as [|[i j] pairs IH]; simpl; [discriminate|].
  unfold list_getitem at 1. destruct (fields !! (i + per * j)); cbn [bind].
  - destruct (comprehension _ pairs); [discriminate| |discriminate].
    intros [= <-]. by apply IH.
  - by intros [= <-].
Qed.

Lemma reorder_raise (fields : list GlossaryField) (breakpoints : list string) (e : exn) :
  reorder fields breakpoints = Raise e ->
  (breakpoints = [] /\ e = ZeroDivisionError) \/ (breakpoints <> [] /\ e = IndexError).
Proof.
  unfold reorder, floordiv.
  destruct (decide (length breakpoints = 0)) as [Hz|Hnz]; cbn [bind].
  - intros [= <-]. left. split; [|done]. by destruct breakpoints.
  - intros ?%comprehension_raise. right. split; [|done]. by destruct breakpoints.
Qed.

Lemma zero_division_iff_empty (ancestors : list plugin) (container : plugin)
    (v : gval) (breakpoints : list string) :
  find_container ancestors = Ok (Some container) ->
  glossary container !! "breakpoints" = Some v ->
  iter v = Ok breakpoints ->
  get_form ancestors = Raise ZeroDivisionError <-> breakpoints = [].
Proof.
  intros Hfind Hv Hiter. unfold get_form, getitem.
  rewrite Hfind. cbn [bind container_glossary]. rewrite Hv. cbn [bind].
  rewrite Hiter. cbn [bind]. split.
  - destruct (for_each _ breakpoints []) as [fields|e|what] eqn:Hloop; cbn [bind].
    + by intros [[? _]|[_ [=]]]%reorder_raise.
    + intros [= ->]. apply for_each_loop_raise in Hloop.
      destruct Hloop as [?|[?|[[? ?]|[?|?]]]]; discriminate.
    + discriminate.
  - intros ->. reflexivity.
Qed.

(** X6: once the container is found, [get_form] divides by zero exactly when
    the container's list of breakpoints is empty. *)
Theorem get_form_zero_division (ancestors : list plugin) (container : plugin)
    (v : gval) (breakpoints : list string) :
  find_container ancestors = Ok (Some container) ->
  glossary container !! "breakpoints" = Some v ->
  iter v = Ok breakpoints ->
  get_form ancestors = Raise ZeroDivisionError <-> breakpoints = [].
Proof. apply zero_division_iff_empty. Qed.

(** X7: a glossary that the container form accepts never makes the column form
    divide by zero: the validation of the one closes the empty list the
    other cannot handle. *)
Theorem accepted_glossary_never_divides_by_zero (ancestors : list plugin)
    (container : plugin) (cleaned : gmap string gval) :
  find_container ancestors = Ok (Some container) ->
  BootstrapContainerForm.clean_glossary (glossary container) = Ok cleaned ->
  cleaned = glossary container
  /\ get_form ancestors <> Raise ZeroDivisionError.
Proof.
  intros Hfind Hclean. unfold BootstrapContainerForm.clean_glossary, getitem in Hclean.
  destruct (glossary container !! "breakpoints") as [v|] eqn:Hv; [|discriminate].
  cbn [bind] in Hclean.
  destruct (len v) as [n| |] eqn:Hlen; [|discriminate..]. cbn [bind] in Hclean.
  destruct (decide (n = 0)) as [|Hn]; [discriminate|]. injection Hclean as <-.
  split; [reflexivity|].
  assert (exists breakpoints, iter v = Ok breakpoints /\ breakpoints <> [])
    as (breakpoints & Hiter & Hne).
  { destruct v as [s|b|l]; simpl in Hlen; [| discriminate |].
    - injection Hlen as <-. exists (Py.chars s). split; [reflexivity|].
      destruct s; [done|discriminate].
    - injection Hlen as <-. exists l. split; [reflexivity|]. by destruct l. }
  intros Hzero. apply Hne.
  by apply (zero_division_iff_empty ancestors container v breakpoints Hfind Hv Hiter).
Qed.

Lemma find_container_passed (below : list plugin) (rest : list plugin) :
  Forall passed_ancestor below ->
  find_container (below ++ rest) = find_container rest.
Proof.
  induction 1 as [|a below [Ha1 Ha2] _ IH]; [reflexivity|].
  simpl. by rewrite Ha1, Ha2.
Qed.

Lemma find_container_raise (ancestors : list plugin) (e : exn) :
  find_container ancestors = Raise e ->
  e = ImproperlyConfigured "A BootstrapColumnPlugin requires a valid parent"
  /\ exists below p above,
       ancestors = below ++ p :: above
       /\ Forall passed_ancestor below
       /\ is_bootstrap_plugin (plugin_cls p) = false.
Proof.
  induction ancestors as [|a ancestors IH]; simpl; [discriminate|].
  destruct (is_bootstrap_plugin (plugin_cls a)) eqn:Hb; simpl.
  - destruct (is_container_plugin (plugin_cls a)) eqn:Hc; [discriminate|].
    intros (-> & below & p & above & -> & Hbelow & Hp)%IH. split; [done|].
    exists (a :: below), p, above. split; [done|]. split; [|done].
    by constructor.
  - intros [= <-]. split; [done|]. exists [], a, ancestors. by repeat split.
Qed.

(** X8: [get_form] reports a configuration error exactly when, walking up from
    the column, a plugin that is no Bootstrap plugin comes before any
    container. *)
Theorem get_form_improperly_configured (ancestors : list plugin) :
  (exists msg, get_form ancestors = Raise (ImproperlyConfigured msg))
  <-> exists below p above,
        ancestors = below ++ p :: above
        /\ Forall passed_ancestor below
        /\ is_bootstrap_plugin (plugin_cls p) = false.
Proof.
  split.
  - intros [msg Hraise]. unfold get_form in Hraise.
    destruct (find_container ancestors) as [container|e|what] eqn:Hfind;
      cbn [bind] in Hraise; [| |discriminate].
    + exfalso.
      destruct container as [container|]; cbn [bind container_glossary] in Hraise;
        [|discriminate].
      unfold getitem in Hraise.
      destruct (glossary container !! "breakpoints") as [v|]; cbn [bind] in Hraise;
        [|discriminate].
      destruct (iter v) as [breakpoints| |] eqn:Hiter; cbn [bind] in Hraise;
        [| |discriminate].
      * destruct (for_each _ breakpoints []) as [fields|e|what] eqn:Hloop;
          cbn [bind] in Hraise; [| |discriminate].
        -- by apply reorder_raise in Hraise as [[_ [=]]|[_ [=]]].
        -- injection Hraise as ->. apply for_each_loop_raise in Hloop.
           destruct Hloop as [?|[?|[[? ?]|[?|?]]]]; discriminate.
      * destruct v; simpl in Hiter; try discriminate.
        injection Hiter as <-. discriminate.
    + apply find_container_raise in Hfind as [_ Hsplit]. exact Hsplit.
  - intros (below & p & above & -> & Hbelow & Hp).
    eexists. unfold get_form.
    rewrite (find_container_passed _ _ Hbelow). simpl. by rewrite Hp.
Qed.

(** X9: the nearest container decides: the plugins between the column and the
    container, and everything above the container, leave the form as it is
    for a column directly in the container. *)
Theorem get_form_nearest_container (below above : list plugin) (container : plugin) :
  Forall passed_ancestor below ->
  is_container_plugin (plugin_cls container) = true ->
  get_form (below ++ container :: above) = get_form [container].
Proof.
  intros Hbelow Hc. unfold get_form.
  rewrite (find_container_passed _ _ Hbelow). simpl.
  destruct (plugin_cls container); try discriminate. reflexivity.
Qed.

End ColumnFormErrors.

Lemma get_form_zero_division_witness :
  @BootstrapColumnPlugin.get_form Sample.host
    [Sample.instance ContainerClass
       {[ "breakpoints" := VList []; "fluid" := VBool false ]} ∅]
  = Raise ZeroDivisionError.
Proof.
  exact (proj2 (@get_form_zero_division Sample.host
                  [Sample.instance ContainerClass
                     {[ "breakpoints" := VList []; "fluid" := VBool false ]} ∅]
                  (Sample.instance ContainerClass
                     {[ "breakpoints" := VList []; "fluid" := VBool false ]} ∅)
                  (VList []) [] eq_refl eq_refl eq_refl) eq_refl).
Defined.

Lemma get_form_improperly_configured_witness :
  exists msg,
    @BootstrapColumnPlugin.get_form Sample.host
      [Sample.instance RowClass ∅ ∅; Sample.instance (ForeignPlugin "TextPlugin") ∅ ∅;
       sample_container]
    = Raise (ImproperlyConfigured msg).
Proof.
  refine (proj2 (@get_form_improperly_configured Sample.host _) _).
  exists [Sample.instance RowClass ∅ ∅], (Sample.instance (ForeignPlugin "TextPlugin") ∅ ∅),
    [sample_container].
  split; [reflexivity|]. split; [|reflexivity].
  constructor; [by split|constructor].
Defined.

Lemma get_form_nearest_container_witness :
  @BootstrapColumnPlugin.get_form Sample.host
    ([Sample.instance RowClass ∅ ∅; Sample.instance ColumnClass ∅ ∅;
      Sample.instance RowClass ∅ ∅]
     ++ sample_container :: [Sample.instance (ForeignPlugin "TextPlugin") ∅ ∅])
  = @BootstrapColumnPlugin.get_form Sample.host [sample_container].
Proof.
  refine (@get_form_nearest_container Sample.host
            [Sample.instance RowClass ∅ ∅; Sample.instance ColumnClass ∅ ∅;
             Sample.instance RowClass ∅ ∅]
            [Sample.instance (ForeignPlugin "TextPlugin") ∅ ∅]
            sample_container _ eq_refl).
  repeat constructor.
Defined.

Section ColumnFormLookups.
Context `{Host}.
Import BootstrapColumnPlugin.

(** A turn of the loop succeeds once its position, its neighbour and its own
    member are found and their bounds are configured. *)
Lemma loop_body_from_parts (container : gmap string gval) (breakpoints : list string)
    (fl : gval) (bp : string) (idx : nat) (last : option Breakpoint) (first : Breakpoint) :
  container !! "fluid" = Some fl ->
  Py.index bp breakpoints = Ok idx ->
  next_breakpoint breakpoints idx = Ok last ->
  (forall l, last = Some l -> bounds_configured l) ->
  getattr bp = Ok first ->
  bounds_configured first ->
  exists four, loop_body container breakpoints [] bp = Ok four.
Proof.
  intros Hfl Hidx Hnext Hlast Hfirst Hbounds.
  pose proof (fun phrases =>
    choose_help_text_total container breakpoints first last fl phrases Hfl Hbounds Hlast)
    as Hhelp.
  unfold loop_body, try_last. rewrite Hidx. cbn [bind].
  rewrite Hnext. cbn [bind]. rewrite Hfirst. cbn [bind]. unfold turn_fields.
  unfold width_field, offset_field, ordering_field, responsive_field.
  destruct (decide (idx = 0));
    repeat match goal with
           | |- context [choose_help_text ?c ?b ?f ?l ?p] =>
               destruct (Hhelp p) as [? ->]; cbn [bind]
           end; eauto.
Qed.

Lemma index_app_l (x : string) (l1 l2 : list string) :
  x ∈ l1 -> exists idx, Py.index x (l1 ++ l2) = Ok idx /\ idx < length l1.
Proof.
  induction l1 as [|y l1 IH]; intros Hin; [by apply elem_of_nil in Hin|].
  simpl. destruct (decide (x = y)) as [->|Hne]; [exists 0; split; [done|lia]|].
  apply elem_of_cons in Hin as [?|Hin]; [done|].
  destruct (IH Hin) as (idx & -> & Hidx). exists (S idx). split; [done|lia].
Qed.

Lemma index_app_r (x : string) (l1 l2 : list string) :
  x ∉ l1 -> Py.index x (l1 ++ x :: l2) = Ok (length l1).
Proof.
  induction l1 as [|y l1 IH]; intros Hnin; simpl.
  - by destruct (decide (x = x)).
  - apply not_elem_of_cons in Hnin as [Hne Hnin].
    destruct (decide (x = y)); [done|]. by rewrite (IH Hnin).
Qed.

(** A turn for a name without attribute ends in the exception of its
    lookup, whatever the [try] block did. *)
Lemma loop_body_unknown (container : gmap string gval) (breakpoints : list string)
    (acc : list GlossaryField) (bp : string) (e : exn) :
  getattr bp = Raise e -> loop_body container breakpoints acc bp = Raise e.
Proof.
  intros Hbp. unfold loop_body, finally_pending.
  destruct (try_last breakpoints bp) as [[idx last]| |]; by rewrite Hbp.
Qed.

(** X10: a name of the container's list under which the class [Breakpoint]
    has no attribute ends [get_form] in an exception. When exactly one name
    comes before it, the first turn finds no member for its neighbour and
    its [finally] block reads the local [last], which no turn has assigned:
    an [UnboundLocalError]. Otherwise the exception is an
    [AttributeError]. The names before it only need to be selectable, the
    names after it are never reached. *)
Theorem get_form_unknown_name (ancestors : list plugin) (container : plugin)
    (before after : list string) (unknown : string) (fl : gval) :
  find_container ancestors = Ok (Some container) ->
  glossary container !! "breakpoints" = Some (VList (before ++ unknown :: after)) ->
  glossary container !! "fluid" = Some fl ->
  Forall selectable before ->
  getattr unknown = Raise AttributeError ->
  get_form ancestors
  = Raise (if decide (length before = 1) then UnboundLocalError else AttributeError).
Proof.
  intros Hfind Hbps Hfl Hsel Hunknown.
  set (breakpoints := before ++ unknown :: after) in *.
  assert (unknown ∉ before) as Hnin.
  { intros Hin. rewrite Forall_forall in Hsel.
    destruct (Hsel _ Hin) as (bp & Hbp & _). congruence. }
  pose proof Hsel as Hsel'. rewrite Forall_forall in Hsel'.
  (* a turn for a name before the unknown one, after the first turn *)
  assert (forall bp acc, bp ∈ before -> acc <> [] ->
            (exists four, loop_body (glossary container) breakpoints acc bp = Ok (acc ++ four))
            \/ loop_body (glossary container) breakpoints acc bp = Raise AttributeError)
    as Hbefore.
  { intros bp acc Hin Hacc.
    destruct (Hsel' _ Hin) as (first & Hfirst & Hbounds).
    destruct (index_app_l bp before (unknown :: after) Hin) as (idx & Hidx & Hlt).
    fold breakpoints in Hidx.
    destruct (next_breakpoint breakpoints idx) as [last|e|what] eqn:Hnext.
    - left.
      destruct (loop_body_from_parts (glossary container) breakpoints fl bp idx last first)
        as [four Hfour]; try assumption.
      + intros l ->. unfold next_breakpoint in Hnext.
        destruct (breakpoints !! (idx + 1)) as [next|] eqn:Hlookup; [|discriminate].
        destruct (getattr next) as [l'| |] eqn:Hl; [|discriminate..].
        injection Hnext as ->.
        assert (next ∈ before) as Hnext_in.
        { unfold breakpoints in Hlookup.
          destruct (decide (idx + 1 < length before)) as [Hin'|Hout].
          - rewrite lookup_app_l in Hlookup by done. by eapply list_elem_of_lookup_2.
          - assert (idx + 1 = length before) as Heq by lia.
            rewrite Heq, list_lookup_middle in Hlookup by done.
            injection Hlookup as <-. congruence. }
        destruct (Hsel' _ Hnext_in) as (l'' & Hl'' & Hb''). congruence.
      + exists four. by apply loop_body_ok.
    - right. rewrite (next_breakpoint_raise _ _ _ Hnext) in Hnext.
      unfold loop_body, try_last, finally_pending.
      rewrite Hidx. cbn [bind]. rewrite Hnext. cbn [bind]. rewrite Hfirst.
      by destruct acc.
    - exfalso. unfold next_breakpoint in Hnext.
      destruct (breakpoints !! (idx + 1)) as [next|] eqn:Hlookup; [|discriminate].
      assert (next ∈ before \/ next = unknown) as [Hnext_in| ->].
      { unfold breakpoints in Hlookup.
        destruct (decide (idx + 1 < length before)) as [Hin'|Hout].
        - rewrite lookup_app_l in Hlookup by done. left. by eapply list_elem_of_lookup_2.
        - assert (idx + 1 = length before) as Heq by lia.
          rewrite Heq, list_lookup_middle in Hlookup by done.
          injection Hlookup as <-. by right. }
      + destruct (Hsel' _ Hnext_in) as (l'' & Hl'' & _). by rewrite Hl'' in Hnext.
      + by rewrite Hunknown in Hnext. }
  assert (forall l acc, l ⊆ before -> acc <> [] ->
            for_each (loop_body (glossary container) breakpoints) (l ++ unknown :: after) acc
            = Raise AttributeError) as Hlater.
  { induction l as [|bp l IH]; intros acc Hsub Hacc; simpl.
    - by rewrite (loop_body_unknown _ _ _ _ _ Hunknown).
    - destruct (Hbefore bp acc) as [[four ->]| ->]; [apply Hsub; by left|done| |reflexivity].
      cbn [bind]. apply IH; [intros x Hx; apply Hsub; by right|].
      by destruct acc. }
  unfold get_form, getitem. rewrite Hfind. cbn [bind container_glossary].
  rewrite Hbps. cbn [bind iter]. fold breakpoints.
  assert (for_each (loop_body (glossary container) breakpoints) breakpoints []
          = Raise (if decide (length before = 1) then UnboundLocalError else AttributeError))
    as ->; [|reflexivity].
  destruct before as [|b1 [|b2 before']].
  - (* the unknown name comes first *)
    unfold breakpoints at 2. cbn [app for_each length].
    by rewrite (loop_body_unknown _ _ _ _ _ Hunknown).
  - (* exactly one name before it *)
    unfold breakpoints at 2. cbn [app for_each length].
    destruct (Hsel' b1) as (first & Hfirst & _); [by left|].
    assert (loop_body (glossary container) breakpoints [] b1 = Raise UnboundLocalError)
      as ->; [|reflexivity].
    unfold loop_body, try_last, finally_pending, breakpoints, next_breakpoint.
    cbn [app Py.index]. destruct (decide (b1 = b1)); [|done].
    cbn [bind lookup list_lookup Nat.add]. rewrite Hunknown. cbn [bind].
    by rewrite Hfirst.
  - (* two names or more before it *)
    destruct (decide (length (b1 :: b2 :: before') = 1)) as [Hlen|_];
      [cbn [length] in Hlen; lia|].
    destruct (Hsel' b1) as (first & Hfirst & Hbounds); [by left|].
    destruct (Hsel' b2) as (second & Hsecond & Hbounds2); [right; by left|].
    destruct (loop_body_from_parts (glossary container) breakpoints fl b1 0
                (Some second) first) as [four Hfour]; try assumption.
    + unfold breakpoints. cbn [app Py.index]. by destruct (decide (b1 = b1)).
    + unfold next_breakpoint, breakpoints. cbn [app lookup list_lookup Nat.add].
      by rewrite Hsecond.
    + by intros l [= <-].
    + unfold breakpoints at 2.
      change (for_each (loop_body (glossary container) breakpoints)
                ((b1 :: b2 :: before') ++ unknown :: after) [])
        with (let* acc' := loop_body (glossary container) breakpoints [] b1 in
              for_each (loop_body (glossary container) breakpoints)
                ((b2 :: before') ++ unknown :: after) acc').
      rewrite Hfour. cbn [bind].
      destruct (loop_body_inv _ _ _ _ Hfour) as (? & ? & ? & w & o & r & v & -> & _).
      apply Hlater; [|done].
      intros name Hname. by right.
Qed.

(** X11: a container whose glossary lacks the fluid flag ends [get_form] in a
    [KeyError] for that key as soon as its list starts with members of the
    enumeration. *)
Theorem get_form_missing_fluid (ancestors : list plugin) (container : plugin)
    (bp : string) (rest : list string) :
  find_container ancestors = Ok (Some container) ->
  glossary container !! "breakpoints" = Some (VList (bp :: rest)) ->
  glossary container !! "fluid" = None ->
  Forall (fun name => exists member, getattr name = Ok member) (bp :: take 1 rest) ->
  get_form ancestors = Raise (KeyError "fluid").
Proof.
  intros Hfind Hbps Hfl Hnames.
  apply Forall_cons in Hnames as [[first Hfirst] Hnext].
  unfold get_form, getitem. rewrite Hfind. cbn [bind container_glossary].
  rewrite Hbps. cbn [bind iter for_each].
  assert (loop_body (glossary container) (bp :: rest) [] bp = Raise (KeyError "fluid"))
    as ->; [|reflexivity].
  unfold loop_body, try_last. cbn [Py.index]. destruct (decide (bp = bp)); [|done].
  cbn [bind].
  assert (exists last, next_breakpoint (bp :: rest) 0 = Ok last) as [last ->].
  { unfold next_breakpoint. cbn [lookup list_lookup Nat.add].
    destruct rest as [|next rest]; [by eexists|].
    apply Forall_cons in Hnext as [[l Hl] _]. cbn [lookup list_lookup].
    rewrite Hl. by eexists. }
  cbn [bind]. rewrite Hfirst. cbn [bind].
  unfold turn_fields, width_field. cbn [decide]. destruct (decide (0 = 0)); [|done].
  unfold choose_help_text, getitem. by rewrite Hfl.
Qed.

End ColumnFormLookups.

Lemma get_form_unknown_name_witness :
  @BootstrapColumnPlugin.get_form Sample.host
    [Sample.instance ContainerClass
       {[ "breakpoints" := VList ["sm"; "xxl"; "lg"]; "fluid" := VBool false ]} ∅]
  = Raise UnboundLocalError
  /\ @BootstrapColumnPlugin.get_form Sample.host
       [Sample.instance ContainerClass
          {[ "breakpoints" := VList ["sm"; "md"; "xxl"]; "fluid" := VBool false ]} ∅]
     = Raise AttributeError.
Proof.
  split.
  - refine (@get_form_unknown_name Sample.host
              [Sample.instance ContainerClass
                 {[ "breakpoints" := VList ["sm"; "xxl"; "lg"]; "fluid" := VBool false ]} ∅]
              (Sample.instance ContainerClass
                 {[ "breakpoints" := VList ["sm"; "xxl"; "lg"]; "fluid" := VBool false ]} ∅)
              ["sm"] ["lg"] "xxl" (VBool false)
              eq_refl eq_refl eq_refl _ eq_refl).
    constructor; [|constructor].
    exists sm. split; [reflexivity|]. split; do 2 eexists; reflexivity.
  - refine (@get_form_unknown_name Sample.host
              [Sample.instance ContainerClass
                 {[ "breakpoints" := VList ["sm"; "md"; "xxl"]; "fluid" := VBool false ]} ∅]
              (Sample.instance ContainerClass
                 {[ "breakpoints" := VList ["sm"; "md"; "xxl"]; "fluid" := VBool false ]} ∅)
              ["sm"; "md"] [] "xxl" (VBool false)
              eq_refl eq_refl eq_refl _ eq_refl).
    constructor; [|constructor; [|constructor]].
    + exists sm. split; [reflexivity|]. split; do 2 eexists; reflexivity.
    + exists md. split; [reflexivity|]. split; do 2 eexists; reflexivity.
Defined.

Lemma get_form_missing_fluid_witness :
  @BootstrapColumnPlugin.get_form Sample.host
    [Sample.instance ContainerClass {[ "breakpoints" := VList ["sm"; "lg"] ]} ∅]
  = Raise (KeyError "fluid").
Proof.
  refine (@get_form_missing_fluid Sample.host
            [Sample.instance ContainerClass {[ "breakpoints" := VList ["sm"; "lg"] ]} ∅]
            (Sample.instance ContainerClass {[ "breakpoints" := VList ["sm"; "lg"] ]} ∅)
            "sm" ["lg"] eq_refl eq_refl eq_refl _).
  constructor; [by exists sm|]. constructor; [by exists lg|constructor].
Defined.

Lemma accepted_glossary_never_divides_by_zero_witness :
  glossary sample_container = glossary sample_container
  /\ @BootstrapColumnPlugin.get_form Sample.host sample_ancestors <> Raise ZeroDivisionError.
Proof.
  exact (@accepted_glossary_never_divides_by_zero Sample.host sample_ancestors
           sample_container (glossary sample_container) eq_refl eq_refl).
Defined.

(** ** The names and the choices of the column's fields *)

Lemma string_length_app (a s : string) :
  String.length (a +:+ s) = String.length a + String.length s.
Proof.
  induction a as [|c a IH]; [reflexivity|].
  change (String c a +:+ s) with (String c (a +:+ s)).
  cbn [String.length]. by rewrite IH.
Qed.

Lemma append_inj_l (s a1 a2 : string) : a1 +:+ s = a2 +:+ s -> a1 = a2.
Proof.
  revert a2. induction a1 as [|c a1 IH]; intros [|d a2] Heq; [reflexivity| | |].
  - apply (f_equal String.length) in Heq.
    rewrite !string_length_app in Heq. cbn [String.length] in Heq. lia.
  - apply (f_equal String.length) in Heq.
    rewrite !string_length_app in Heq. cbn [String.length] in Heq. lia.
  - change (String c (a1 +:+ s) = String d (a2 +:+ s)) in Heq.
    injection Heq as -> Heq. f_equal. by apply IH.
Qed.

Lemma getattr_name `{Host} (s : string) (bp : Breakpoint) :
  getattr s = Ok bp -> s = name bp.
Proof.
  unfold getattr. destruct (list_find _ _) as [[i b]|] eqn:Hfind;
    [|by destruct (other_attribute s)].
  intros [= <-]. apply list_find_Some in Hfind as (_ & Hname & _). done.
Qed.

Section FieldNames.
Context `{Host}.
Import BootstrapColumnPlugin.

Lemma names_of_groups (l : list string) (groups : list field_group) :
  Forall2 (fun bp g =>
             gf_name (width_of g) = bp +:+ "-column-width"
             /\ gf_name (offset_of g) = bp +:+ "-column-offset"
             /\ gf_name (ordering_of g) = bp +:+ "-column-ordering"
             /\ gf_name (responsive_of g) = bp +:+ "-responsive-utils")
    l groups ->
  gf_name <$> by_category groups
  = ((fun bp => bp +:+ "-column-width") <$> l)
    ++ ((fun bp => bp +:+ "-column-offset") <$> l)
    ++ ((fun bp => bp +:+ "-column-ordering") <$> l)
    ++ ((fun bp => bp +:+ "-responsive-utils") <$> l).
Proof.
  intros Hnames. unfold by_category. rewrite !fmap_app, <- !list_fmap_compose.
  assert (forall (proj : field_group -> GlossaryField) (s : string),
            (forall bp g, gf_name (width_of g) = bp +:+ "-column-width"
                          /\ gf_name (offset_of g) = bp +:+ "-column-offset"
                          /\ gf_name (ordering_of g) = bp +:+ "-column-ordering"
                          /\ gf_name (responsive_of g) = bp +:+ "-responsive-utils" ->
                          gf_name (proj g) = bp +:+ s) ->
            (gf_name ∘ proj) <$> groups = (fun bp => bp +:+ s) <$> l) as Hcat.
  { intros proj s Hproj. induction Hnames as [|bp g l groups Hg _ IH]; [reflexivity|].
    cbn [fmap list_fmap compose]. f_equal; [by apply Hproj|apply IH]. }
  rewrite (Hcat width_of "-column-width"), (Hcat offset_of "-column-offset"),
    (Hcat ordering_of "-column-ordering"), (Hcat responsive_of "-responsive-utils");
    [reflexivity|tauto..].
Qed.

Lemma suffixed_NoDup (s : string) (l : list string) :
  NoDup l -> NoDup ((fun bp => bp +:+ s) <$> l).
Proof. apply NoDup_fmap_2. intros a1 a2. apply append_inj_l. Qed.

Lemma suffixed_last_char (s : string) (c : ascii) (l : list string) (x : string) :
  s <> "" -> last_char s = Some c ->
  x ∈ (fun bp => bp +:+ s) <$> l -> last_char x = Some c.
Proof.
  intros Hs Hc (bp & -> & _)%list_elem_of_fmap. by rewrite last_char_app.
Qed.

(** X12: the fields of the form have pairwise distinct names when the
    container's list repeats no breakpoint. *)
Theorem get_form_distinct_names (ancestors : list plugin) (container : plugin)
    (breakpoints : list string) (fl : gval) :
  find_container ancestors = Ok (Some container) ->
  glossary container !! "breakpoints" = Some (VList breakpoints) ->
  glossary container !! "fluid" = Some fl ->
  breakpoints <> [] ->
  NoDup breakpoints ->
  Forall selectable breakpoints ->
  exists fields,
    get_form ancestors = Ok fields /\ NoDup (gf_name <$> fields).
Proof.
  intros Hfind Hbps Hfl Hne Hnd Hall.
  destruct (get_form_groups _ _ _ _ Hfind Hbps Hfl Hne Hall)
    as (groups & Hgroups & _ & Hform).
  exists (by_category groups). split; [done|].
  rewrite (names_of_groups breakpoints groups) by (by eapply group_names).
  pose proof (suffixed_last_char "-column-width" "h" breakpoints) as Hw.
  pose proof (suffixed_last_char "-column-offset" "t" breakpoints) as Ho.
  pose proof (suffixed_last_char "-column-ordering" "g" breakpoints) as Hr.
  pose proof (suffixed_last_char "-responsive-utils" "s" breakpoints) as Hv.
  repeat (apply NoDup_app; split; [by apply suffixed_NoDup|split]);
    try by apply suffixed_NoDup.
  - intros x Hx. rewrite !elem_of_app. intros [Hy|[Hy|Hy]].
    + apply Hw in Hx; [|done..]. apply Ho in Hy; [|done..]. congruence.
    + apply Hw in Hx; [|done..]. apply Hr in Hy; [|done..]. congruence.
    + apply Hw in Hx; [|done..]. apply Hv in Hy; [|done..]. congruence.
  - intros x Hx. rewrite !elem_of_app. intros [Hy|Hy].
    + apply Ho in Hx; [|done..]. apply Hr in Hy; [|done..]. congruence.
    + apply Ho in Hx; [|done..]. apply Hv in Hy; [|done..]. congruence.
  - intros x Hx Hy.
    apply Hr in Hx; [|done..]. apply Hv in Hy; [|done..]. congruence.
Qed.

Lemma member_keys_listed (bp : Breakpoint) :
  name bp +:+ "-column-width" ∈ default_css_attributes
  /\ name bp +:+ "-column-offset" ∈ default_css_attributes
  /\ name bp +:+ "-column-ordering" ∈ default_css_attributes
  /\ name bp +:+ "-responsive-utils" ∈ default_css_attributes.
Proof.
  destruct bp; repeat split; refine (bool_decide_unpack _ _); vm_compute; exact I.
Qed.

(** X13: every field of the form is named by an entry of
    [default_css_attributes]: the keys the form writes into the glossary
    are keys the plugin turns into CSS classes. *)
Theorem get_form_names_are_css_attributes (ancestors : list plugin) (container : plugin)
    (breakpoints : list string) (fl : gval) :
  find_container ancestors = Ok (Some container) ->
  glossary container !! "breakpoints" = Some (VList breakpoints) ->
  glossary container !! "fluid" = Some fl ->
  breakpoints <> [] ->
  Forall selectable breakpoints ->
  exists fields,
    get_form ancestors = Ok fields
    /\ Forall (fun field => gf_name field ∈ default_css_attributes) fields.
Proof.
  intros Hfind Hbps Hfl Hne Hall.
  destruct (get_form_groups _ _ _ _ Hfind Hbps Hfl Hne Hall)
    as (groups & Hgroups & _ & Hform).
  exists (by_category groups). split; [done|].
  apply group_names in Hgroups.
  assert (Forall (fun g =>
            gf_name (width_of g) ∈ default_css_attributes
            /\ gf_name (offset_of g) ∈ default_css_attributes
            /\ gf_name (ordering_of g) ∈ default_css_attributes
            /\ gf_name (responsive_of g) ∈ default_css_attributes) groups) as Hlisted.
  { clear Hform Hne Hbps. revert Hall.
    induction Hgroups as [|bp g l groups (Hw & Ho & Hr & Hv) _ IH];
      intros Hall; constructor.
    - apply Forall_cons in Hall as [(member & Hmember & _) _].
      rewrite Hw, Ho, Hr, Hv, (getattr_name _ _ Hmember). apply member_keys_listed.
    - apply IH. by apply Forall_cons in Hall as [_ ?]. }
  unfold by_category. rewrite !Forall_app, !Forall_fmap.
  repeat split; (eapply Forall_impl; [exact Hlisted|]); intros g (? & ? & ? & ?); assumption.
Qed.

End FieldNames.

Lemma get_form_distinct_names_witness :
  exists fields,
    @BootstrapColumnPlugin.get_form Sample.host sample_ancestors = Ok fields
    /\ NoDup (gf_name <$> fields).
Proof.
  exact (@get_form_distinct_names Sample.host sample_ancestors sample_container
           ["sm"; "lg"] (VBool false) eq_refl eq_refl eq_refl ltac:(discriminate)
           ltac:(refine (bool_decide_unpack _ _); vm_compute; exact I)
           sample_selectable).
Defined.

Lemma get_form_names_are_css_attributes_witness :
  exists fields,
    @BootstrapColumnPlugin.get_form Sample.host sample_ancestors = Ok fields
    /\ Forall (fun field => gf_name field ∈ BootstrapColumnPlugin.default_css_attributes)
         fields.
Proof.
  exact (@get_form_names_are_css_attributes Sample.host sample_ancestors sample_container
           ["sm"; "lg"] (VBool false) eq_refl eq_refl eq_refl ltac:(discriminate)
           sample_selectable).
Defined.

Section ChoiceValues.
Context `{Host}.
Import BootstrapColumnPlugin.

Lemma range_elem_of (n a b : nat) : a <= n < b -> Z.of_nat n ∈ Py.range a b.
Proof.
  intros Hn. unfold Py.range. apply list_elem_of_fmap_2, elem_of_seq. lia.
Qed.

(** The values of the width choices: the stem [col] or [col-<bp>] followed
    by nothing, by the units 1 to 12, or by [auto]. *)
Lemma width_choice_values (bp : string) :
  (width_choices bp).*1
  = (fun suffix => (if decide (bp = "xs") then "col" else "col-" +:+ bp) +:+ suffix)
      <$> [""; "-1"; "-2"; "-3"; "-4"; "-5"; "-6"; "-7"; "-8"; "-9"; "-10"; "-11";
           "-12"; "-auto"].
Proof.
  unfold width_choices. destruct (decide (bp = "xs")); [reflexivity|].
  cbn [fmap list_fmap]. rewrite !fmap_app. cbn [fmap list_fmap app Py.range].
  repeat (f_equal; [rewrite ?app_empty_r; reflexivity|]).
  reflexivity.
Qed.

Lemma stem_inj (stem : string) : Inj (=) (=) (fun suffix => stem +:+ suffix).
Proof. intros a b Heq. by apply (inj (String.append stem)) in Heq. Qed.

Lemma offset_choice_values (idx : nat) (bp : string) :
  (offset_choices idx bp).*1
  = "" :: ((fun suffix => (if decide (bp = "xs") then "offset" else "offset-" +:+ bp) +:+ suffix)
             <$> (if decide (idx = 0)
                  then ["-1"; "-2"; "-3"; "-4"; "-5"; "-6"; "-7"; "-8"; "-9"; "-10"; "-11"; "-12"]
                  else ["-0"; "-1"; "-2"; "-3"; "-4"; "-5"; "-6"; "-7"; "-8"; "-9"; "-10"; "-11";
                        "-12"])).
Proof.
  unfold offset_choices.
  destruct (decide (idx = 0)); (destruct (decide (bp = "xs")); [reflexivity|]);
    cbn [fmap list_fmap app Py.range];
    repeat (f_equal; [rewrite ?app_empty_r; reflexivity|]); reflexivity.
Qed.

Lemma ordering_choice_values (bp : string) :
  (ordering_choices bp).*1
  = "" :: ((fun suffix => (if decide (bp = "xs") then "order" else "order-" +:+ bp) +:+ suffix)
             <$> ["-1"; "-2"; "-3"; "-4"; "-5"; "-6"; "-7"; "-8"; "-9"; "-10"; "-11"; "-12"]).
Proof.
  unfold ordering_choices. destruct (decide (bp = "xs")); [reflexivity|].
  cbn [fmap list_fmap app Py.range].
  repeat (f_equal; [rewrite ?app_empty_r; reflexivity|]); reflexivity.
Qed.

Lemma stem_values_NoDup (stem : string) (suffixes : list string) :
  stem <> "" -> NoDup suffixes ->
  NoDup ("" :: ((fun suffix => stem +:+ suffix) <$> suffixes)).
Proof.
  intros Hstem Hnd. apply NoDup_cons. split.
  - intros (suffix & Heq & _)%list_elem_of_fmap.
    apply (f_equal String.length) in Heq. rewrite string_length_app in Heq.
    destruct stem; [done|]. cbn [String.length] in Heq. lia.
  - apply NoDup_fmap_2; [apply stem_inj|done].
Qed.

(** X14: in every field the values of the choices are pairwise distinct, the
    empty value of the inherit entry included: a stored value names one
    choice. *)
Theorem choice_values_distinct (idx : nat) (bp : string) :
  NoDup ("" :: (width_choices bp).*1)
  /\ NoDup (offset_choices idx bp).*1
  /\ NoDup (ordering_choices bp).*1
  /\ NoDup (responsive_choices bp).*1.
Proof.
  rewrite width_choice_values, offset_choice_values, ordering_choice_values.
  split; [|split; [|split]].
  - apply NoDup_cons. split.
    + intros (suffix & Heq & _)%list_elem_of_fmap.
      apply (f_equal String.length) in Heq. rewrite string_length_app in Heq.
      destruct (decide (bp = "xs")); [cbn [String.length] in Heq; lia|].
      rewrite string_length_app in Heq. cbn [String.length] in Heq. lia.
    + apply NoDup_fmap_2; [apply stem_inj|].
      refine (bool_decide_unpack _ _). vm_compute. exact I.
  - apply stem_values_NoDup; [by destruct (decide (bp = "xs"))|].
    destruct (decide (idx = 0)); refine (bool_decide_unpack _ _); vm_compute; exact I.
  - apply stem_values_NoDup; [by destruct (decide (bp = "xs"))|].
    refine (bool_decide_unpack _ _). vm_compute. exact I.
  - unfold responsive_choices. cbn [fmap list_fmap fst].
    change (Py.format "visible-{}" [bp]) with ("visible-" +:+ bp +:+ "").
    change (Py.format "hidden-{}" [bp]) with ("hidden-" +:+ bp +:+ "").
    apply NoDup_cons. split.
    { rewrite !elem_of_cons, elem_of_nil. intros [?|[?|[]]]; discriminate. }
    apply NoDup_cons. split.
    { rewrite elem_of_cons, elem_of_nil. intros [?|[]]; discriminate. }
    apply NoDup_singleton.
Qed.

(** X15: a later breakpoint offers the offset of zero units, with which an offset
    inherited from a narrower breakpoint is taken back; the first breakpoint
    does not offer it. *)
Theorem zero_offset_only_after_first (idx : nat) (bp : string) :
  (if decide (bp = "xs") then "offset" else "offset-" +:+ bp) +:+ "-0"
    ∈ (offset_choices idx bp).*1
  <-> idx <> 0.
Proof.
  rewrite offset_choice_values, elem_of_cons.
  rewrite (list_elem_of_fmap_inj _ (Inj0 := stem_inj _)).
  destruct (decide (idx = 0)) as [->|Hidx]; split.
  - intros [Heq|Hin].
    + apply (f_equal String.length) in Heq. rewrite string_length_app in Heq.
      cbn [String.length] in Heq. lia.
    + exfalso. revert Hin. refine (bool_decide_unpack _ _). vm_compute. exact I.
  - done.
  - done.
  - intros _. right. refine (bool_decide_unpack _ _). vm_compute. exact I.
Qed.

Lemma width_field_first (bp devices : string)
    (help : string * string * string -> result string) (w : GlossaryField) :
  width_field 0 bp devices help = Ok w ->
  gf_widget w = Select (width_choices bp)
  /\ gf_initial w = Some ("col-" +:+ bp +:+ "-12").
Proof.
  unfold width_field. destruct (decide (0 = 0)); [|done].
  intros Hw. case_bind; [|discriminate..]. injection Hw as <-. by split.
Qed.

(** X16: the width field of the first breakpoint starts out at [col-<bp>-12],
    which is one of its choices unless the breakpoint is xs, whose choices
    are spelt without the breakpoint. *)
Theorem first_width_initial_choice (ancestors : list plugin) (container : plugin)
    (bp : string) (rest : list string) (fl : gval) :
  find_container ancestors = Ok (Some container) ->
  glossary container !! "breakpoints" = Some (VList (bp :: rest)) ->
  glossary container !! "fluid" = Some fl ->
  Forall selectable (bp :: rest) ->
  exists fields w,
    get_form ancestors = Ok fields
    /\ fields !! 0 = Some w
    /\ gf_name w = bp +:+ "-column-width"
    /\ gf_initial w = Some ("col-" +:+ bp +:+ "-12")
    /\ ("col-" +:+ bp +:+ "-12" ∈ (widget_choices (gf_widget w)).*1 <-> bp <> "xs").
Proof.
  intros Hfind Hbps Hfl Hall.
  destruct (get_form_groups _ _ _ _ Hfind Hbps Hfl ltac:(discriminate) Hall)
    as (groups & Hgroups & _ & Hform).
  apply Forall2_cons_inv_l in Hgroups as (g & groups' & Hbody & _ & ->).
  destruct (loop_body_inv _ _ _ _ Hbody)
    as (idx & last & first & w & o & r & v & [= <- <- <- <-] & Hidx & _ & _ & Hw & _).
  cbn [Py.index] in Hidx. destruct (decide (bp = bp)); [|done]. injection Hidx as <-.
  pose proof (width_field_inv _ _ _ _ _ Hw) as (Hname & _).
  apply width_field_first in Hw as (Hwidget & Hinitial).
  exists (by_category (g :: groups')), (width_of g).
  split; [done|]. split; [reflexivity|]. split; [done|]. split; [done|].
  rewrite Hwidget. cbn [widget_choices]. rewrite width_choice_values.
  destruct (decide (bp = "xs")) as [->|Hne]; split; try done.
  - intros Hin _. revert Hin. refine (bool_decide_unpack _ _). vm_compute. exact I.
  - intros _. apply (list_elem_of_fmap_2' _ _ "-12"); [|reflexivity].
    refine (bool_decide_unpack _ _). vm_compute. exact I.
Qed.

End ChoiceValues.

Lemma zero_offset_only_after_first_witness :
  "offset-md-0" ∈ (@BootstrapColumnPlugin.offset_choices Sample.host 1 "md").*1
  /\ "offset-0" ∉ (@BootstrapColumnPlugin.offset_choices Sample.host 0 "xs").*1.
Proof.
  split.
  - exact (proj2 (@zero_offset_only_after_first Sample.host 1 "md") ltac:(lia)).
  - intros Hin.
    exact (proj1 (@zero_offset_only_after_first Sample.host 0 "xs") Hin eq_refl).
Defined.

Lemma first_width_initial_choice_witness :
  exists fields w,
    @BootstrapColumnPlugin.get_form Sample.host sample_ancestors = Ok fields
    /\ fields !! 0 = Some w
    /\ gf_name w = "sm" +:+ "-column-width"
    /\ gf_initial w = Some ("col-" +:+ "sm" +:+ "-12")
    /\ ("col-" +:+ "sm" +:+ "-12" ∈ (widget_choices (gf_widget w)).*1 <-> "sm" <> "xs").
Proof.
  exact (@first_width_initial_choice Sample.host sample_ancestors sample_container
           "sm" ["lg"] (VBool false) eq_refl eq_refl eq_refl sample_selectable).
Defined.

(** ** The column's identifier and the glossary *)

Section ColumnIdentifierGlossary.
Context `{Host}.
Import BootstrapColumnPlugin.

Lemma width_text_agree (g1 g2 : gmap string gval) (bp : string) :
  g1 !! (bp +:+ "-column-width") = g2 !! (bp +:+ "-column-width") ->
  width_text g1 bp = width_text g2 bp.
Proof. unfold width_text. rewrite format_column_width_key. by intros ->. Qed.

Lemma collect_width_agree (g1 g2 : gmap string gval) (l acc : list string) :
  (forall bp, bp ∈ l -> g1 !! (bp +:+ "-column-width") = g2 !! (bp +:+ "-column-width")) ->
  for_each (collect_width g1) l acc = for_each (collect_width g2) l acc.
Proof.
  revert acc. induction l as [|bp l IH]; intros acc Hagree; [reflexivity|].
  cbn [for_each]. unfold collect_width at 1 3.
  rewrite (width_text_agree g1 g2 bp) by (apply Hagree; by left).
  destruct (width_text g2 bp) as [width| |]; [|reflexivity..]. cbn [bind].
  destruct (decide (width = "")); cbn [bind]; apply IH; intros x Hx; apply Hagree; by right.
Qed.

(** X17: the identifier reads the glossary only at the width keys of the
    breakpoints of the complete glossary: two columns that agree there, on
    that list and on the base identifier have the same identifier, whatever
    else their glossaries hold. *)
Theorem column_identifier_reads_selected_widths (obj1 obj2 : plugin)
    (breakpoints : list string) :
  breakpoints_or_empty (complete_glossary obj1) = Ok breakpoints ->
  breakpoints_or_empty (complete_glossary obj2) = Ok breakpoints ->
  (forall bp, bp ∈ breakpoints ->
     glossary obj1 !! (bp +:+ "-column-width") = glossary obj2 !! (bp +:+ "-column-width")) ->
  super_get_identifier obj1 = super_get_identifier obj2 ->
  get_identifier obj1 = get_identifier obj2.
Proof.
  intros Hb1 Hb2 Hagree Hsuper. unfold get_identifier.
  rewrite Hb1, Hb2, Hsuper. cbn [bind].
  by rewrite (collect_width_agree _ _ _ _ Hagree).
Qed.

Lemma string_app_assoc (a b c : string) : (a +:+ b) +:+ c = a +:+ (b +:+ c).
Proof.
  induction a as [|x a IH]; [reflexivity|].
  change (String x ((a +:+ b) +:+ c) = String x (a +:+ (b +:+ c))). by rewrite IH.
Qed.

Lemma startswith_app (p d : string) : Py.startswith p (p +:+ d) = true.
Proof.
  induction p as [|c p IH]; [reflexivity|].
  change (String c p +:+ d) with (String c (p +:+ d)). cbn [Py.startswith].
  by destruct (decide (c = c)).
Qed.

Lemma replace_scan_skip (old new p d : string) :
  Py.replace_scan old new (String.length p) (p +:+ d) = Py.replace_scan old new 0 d.
Proof.
  induction p as [|c p IH]; [reflexivity|].
  change (String c p +:+ d) with (String c (p +:+ d)). exact IH.
Qed.

(** Replacing a non-empty prefix of a string takes the prefix off and goes
    on with what follows it. *)
Lemma replace_prefix (c : ascii) (old' new d : string) :
  Py.replace (String c old') new (String c old' +:+ d)
  = new +:+ Py.replace_scan (String c old') new 0 d.
Proof.
  unfold Py.replace.
  change (String c old' +:+ d) with (String c (old' +:+ d)).
  cbn [Py.replace_scan].
  change (String c (old' +:+ d)) with (String c old' +:+ d).
  rewrite startswith_app.
  cbn [String.length Nat.sub]. rewrite Nat.sub_0_r.
  by rewrite replace_scan_skip.
Qed.

(** The width the row seeds reads back as its number of units. *)
Lemma seeded_width_text (N : Z) (narrowest : string) :
  N ∈ ROW_NUM_COLUMNS ->
  Py.replace ("col-" +:+ narrowest +:+ "-") ""
    ("col-" +:+ narrowest +:+ "-" +:+ Py.str (12 / N))
  = Py.str (12 / N)
  /\ Py.str (12 / N) <> "".
Proof.
  intros HN.
  assert ("col-" +:+ narrowest +:+ "-" +:+ Py.str (12 / N)
          = String "c" ("ol-" +:+ narrowest +:+ "-") +:+ Py.str (12 / N)) as ->.
  { change ("col-" +:+ (narrowest +:+ ("-" +:+ Py.str (12 / N)))
            = "col-" +:+ ((narrowest +:+ "-") +:+ Py.str (12 / N))).
    by rewrite string_app_assoc. }
  change ("col-" +:+ narrowest +:+ "-") with (String "c" ("ol-" +:+ narrowest +:+ "-")).
  rewrite replace_prefix.
  apply row_num_columns_cases in HN.
  destruct HN as [->|[->|[->|[->|[->| ->]]]]]; split; first [reflexivity|discriminate].
Qed.

(** X18: the width the row seeds is read back by the identifier's loop as its
    number of units, for every count of the row form and every narrowest
    breakpoint, xs included: for a column that carries the seeded glossary
    the loop collects the one text of 12 // N. *)
Theorem seeded_width_reads_back (N : Z) (narrowest : string) (rest : list string) :
  N ∈ ROW_NUM_COLUMNS ->
  narrowest ∉ rest ->
  width_text (child_glossary narrowest (12 / N)) narrowest = Ok (Py.str (12 / N))
  /\ for_each (collect_width (child_glossary narrowest (12 / N))) (narrowest :: rest) []
     = Ok [Py.str (12 / N)].
Proof.
  intros HN Hnin.
  destruct (seeded_width_text N narrowest HN) as [Htext Hne].
  split.
  - rewrite (width_text_set _ _ _ (child_glossary_lookup narrowest (12 / N))).
    by rewrite Htext.
  - rewrite <- Htext.
    apply (collect_width_single (child_glossary narrowest (12 / N)) [] rest narrowest).
    + constructor.
    + apply Forall_forall. intros bp Hbp. left.
      unfold child_glossary. rewrite format_column_width_key.
      apply lookup_singleton_ne. intros Heq%append_inj_l. by subst.
    + apply child_glossary_lookup.
    + by rewrite Htext.
Qed.

Lemma startswith_longer (p s : string) :
  String.length s < String.length p -> Py.startswith p s = false.
Proof.
  revert s. induction p as [|c p IH]; intros s Hlen; [cbn in Hlen; lia|].
  destruct s as [|d s]; [reflexivity|]. cbn [Py.startswith].
  destruct (decide (c = d)); [|reflexivity]. apply IH. cbn [String.length] in Hlen. lia.
Qed.

(** A string shorter than [old] holds no occurrence of it and stays as it is. *)
Lemma replace_scan_short (old new s : string) :
  String.length s < String.length old -> Py.replace_scan old new 0 s = s.
Proof.
  induction s as [|c s IH]; intros Hlen; [reflexivity|].
  cbn [Py.replace_scan]. rewrite (startswith_longer old (String c s) Hlen).
  f_equal. apply IH. cbn [String.length] in Hlen. lia.
Qed.

(** X19: what the identifier reads back from a width chosen in the form, for a
    breakpoint other than xs: the number of units of a fixed width and
    [auto] come without the class prefix, the flex choice [col-<bp>] has no
    such prefix and comes back as the whole class. *)
Theorem chosen_width_reads_back (g : gmap string gval) (bp v : string) :
  bp <> "xs" ->
  v ∈ (width_choices bp).*1 ->
  g !! (bp +:+ "-column-width") = Some (VStr v) ->
  exists suffix,
    v = "col-" +:+ bp +:+ suffix
    /\ suffix ∈ [""; "-1"; "-2"; "-3"; "-4"; "-5"; "-6"; "-7"; "-8"; "-9"; "-10"; "-11";
                 "-12"; "-auto"]
    /\ width_text g bp
       = Ok (match suffix with
             | EmptyString => v
             | String _ units => units
             end).
Proof.
  intros Hbp Hv Hg. rewrite width_choice_values in Hv.
  destruct (decide (bp = "xs")); [done|].
  apply list_elem_of_fmap in Hv as (suffix & -> & Hsuffix).
  exists suffix. split; [by rewrite string_app_assoc|]. split; [done|].
  rewrite (width_text_set _ _ _ Hg).
  destruct suffix as [|dash units].
  - rewrite app_empty_r. f_equal.
    change ("col-" +:+ bp +:+ "-") with (String "c" ("ol-" +:+ bp +:+ "-")).
    unfold Py.replace. apply replace_scan_short.
    change (String "c" ("ol-" +:+ bp +:+ "-")) with ("col-" +:+ (bp +:+ "-")).
    rewrite !string_length_app. cbn [String.length]. lia.
  - assert (dash = "-"%char) as ->.
    { rewrite !elem_of_cons, elem_of_nil in Hsuffix.
      destruct Hsuffix as [?|[?|[?|[?|[?|[?|[?|[?|[?|[?|[?|[?|[?|[?|[]]]]]]]]]]]]]]];
        congruence. }
    assert (("col-" +:+ bp) +:+ String "-" units
            = String "c" ("ol-" +:+ bp +:+ "-") +:+ units) as ->.
    { change (("col-" +:+ bp) +:+ ("-" +:+ units) = ("col-" +:+ (bp +:+ "-")) +:+ units).
      by rewrite !string_app_assoc. }
    change ("col-" +:+ bp +:+ "-") with (String "c" ("ol-" +:+ bp +:+ "-")).
    rewrite replace_prefix. f_equal.
    rewrite !elem_of_cons, elem_of_nil in Hsuffix.
    destruct Hsuffix as [?|[?|[?|[?|[?|[?|[?|[?|[?|[?|[?|[?|[?|[?|[]]]]]]]]]]]]]]];
      simplify_eq; reflexivity.
Qed.

End ColumnIdentifierGlossary.

Lemma chosen_width_reads_back_witness :
  exists suffix,
    "col-md-4" = "col-" +:+ "md" +:+ suffix
    /\ suffix ∈ [""; "-1"; "-2"; "-3"; "-4"; "-5"; "-6"; "-7"; "-8"; "-9"; "-10"; "-11";
                 "-12"; "-auto"]
    /\ @BootstrapColumnPlugin.width_text {[ "md-column-width" := VStr "col-md-4" ]} "md"
       = Ok (match suffix with
             | EmptyString => "col-md-4"
             | String _ units => units
             end).
Proof.
  refine (@chosen_width_reads_back Sample.host {[ "md-column-width" := VStr "col-md-4" ]}
            "md" "col-md-4" ltac:(discriminate) _ eq_refl).
  refine (bool_decide_unpack _ _). vm_compute. exact I.
Defined.

Lemma column_identifier_reads_selected_widths_witness :
  @BootstrapColumnPlugin.get_identifier Sample.host
    (Sample.instance ColumnClass
       {[ "lg-column-width" := VStr "col-lg-4"; "xl-column-width" := VStr "col-xl-2" ]}
       {[ "breakpoints" := VList ["sm"; "lg"] ]})
  = @BootstrapColumnPlugin.get_identifier Sample.host
      (Sample.instance ColumnClass
         {[ "lg-column-width" := VStr "col-lg-4" ]}
         {[ "breakpoints" := VList ["sm"; "lg"] ]}).
Proof.
  refine (@column_identifier_reads_selected_widths Sample.host
            (Sample.instance ColumnClass
               {[ "lg-column-width" := VStr "col-lg-4"; "xl-column-width" := VStr "col-xl-2" ]}
               {[ "breakpoints" := VList ["sm"; "lg"] ]})
            (Sample.instance ColumnClass
               {[ "lg-column-width" := VStr "col-lg-4" ]}
               {[ "breakpoints" := VList ["sm"; "lg"] ]})
            ["sm"; "lg"] eq_refl eq_refl _ eq_refl).
  intros bp Hbp. apply elem_of_cons in Hbp as [->|Hbp]; [reflexivity|].
  apply elem_of_cons in Hbp as [->|Hbp]; [reflexivity|].
  by apply elem_of_nil in Hbp.
Defined.

Lemma seeded_width_reads_back_witness :
  @BootstrapColumnPlugin.width_text (child_glossary "xs" (12 / 3)) "xs" = Ok "4"
  /\ for_each (BootstrapColumnPlugin.collect_width (child_glossary "xs" (12 / 3)))
       ["xs"; "md"] []
     = Ok ["4"].
Proof.
  refine (seeded_width_reads_back 3 "xs" ["md"] _ _).
  - refine (bool_decide_unpack _ _). vm_compute. exact I.
  - refine (bool_decide_unpack _ _). vm_compute. exact I.
Defined.


(** ** The widths of a new row's columns *)

Lemma seeded_width_units (N : Z) (narrowest : string) :
  N ∈ ROW_NUM_COLUMNS ->
  width_units (child_glossary narrowest (12 / N)) narrowest = Some (12 / N)%Z.
Proof.
  intros HN. unfold width_units.
  rewrite (width_text_set _ _ _ (child_glossary_lookup narrowest (12 / N))).
  destruct (seeded_width_text N narrowest HN) as [-> _].
  apply row_num_columns_cases in HN.
  destruct HN as [->|[->|[->|[->|[->| ->]]]]]; reflexivity.
Qed.

Lemma replicated_children_units (obj : plugin) (bp : string) (n : nat) (w : Z)
    (child : plugin_class * gmap string gval) :
  children obj = replicate n child ->
  width_units child.2 bp = Some w ->
  children_units obj bp = Some (Z.of_nat n * w)%Z.
Proof.
  unfold children_units. intros -> Hw.
  induction n as [|n IH]; [reflexivity|].
  cbn [replicate foldr]. rewrite IH, Hw. f_equal. lia.
Qed.

(** C9: every count N of the form's list divides 12, so the width 12 // N
    that [save_model] computes leaves no remainder; saving a row without
    children gives it N columns, each of which holds that width under the
    key of the narrowest breakpoint, and the widths of these N columns add
    up to the 12 units of the grid. *)
Theorem row_widths_fill_grid (obj : plugin) (N : Z) (narrowest : string)
    (rest : list string) :
  N ∈ ROW_NUM_COLUMNS ->
  children obj = [] ->
  complete_glossary obj !! "breakpoints" = Some (VList (narrowest :: rest)) ->
  exists w obj',
    column_width N = Ok w
    /\ w = (12 / N)%Z
    /\ (12 mod N = 0)%Z
    /\ (N * w = 12)%Z
    /\ save_model obj N = Ok obj'
    /\ length (children obj') = Z.to_nat N
    /\ Forall (fun child =>
                 child.2 !! (narrowest +:+ "-column-width")
                 = Some (VStr ("col-" +:+ narrowest +:+ "-" +:+ Py.str w))
                 /\ width_units child.2 narrowest = Some w) (children obj')
    /\ children_units obj' narrowest = Some 12%Z.
Proof.
  intros HN Hnone Hbps.
  pose proof (seeded_width_units N narrowest HN) as Hunits.
  pose proof (row_num_columns_cases N HN) as Hcases.
  assert (N <> 0%Z) as Hnz by lia.
  assert ((12 mod N = 0)%Z /\ (N * (12 / N) = 12)%Z) as [Hmod Hmul].
  { destruct Hcases as [->|[->|[->|[->|[->| ->]]]]]; by split. }
  exists (12 / N)%Z,
    (extend_children obj N ColumnClass (child_glossary narrowest (12 / N))).
  assert (children (extend_children obj N ColumnClass (child_glossary narrowest (12 / N)))
          = replicate (Z.to_nat N) (ColumnClass, child_glossary narrowest (12 / N)))
    as Hchildren.
  { cbn [extend_children children]. rewrite Hnone. cbn [length].
    by rewrite take_nil, Nat.sub_0_r. }
  split; [unfold column_width; by destruct (decide (N = 0%Z))|].
  split; [reflexivity|]. split; [done|]. split; [done|].
  split.
  { unfold save_model, getitem, column_width. rewrite Hbps. cbn [bind first_item iter].
    by destruct (decide (N = 0%Z)). }
  split; [by rewrite Hchildren, length_replicate|].
  split.
  { rewrite Hchildren. apply Forall_replicate. split; [apply child_glossary_lookup|done]. }
  rewrite (replicated_children_units _ narrowest (Z.to_nat N) (12 / N) _ Hchildren Hunits).
  f_equal. rewrite Z2Nat.id by lia. done.
Qed.

Lemma row_widths_fill_grid_witness :
  exists w obj',
    column_width 4 = Ok w
    /\ w = (12 / 4)%Z
    /\ (12 mod 4 = 0)%Z
    /\ (4 * w = 12)%Z
    /\ save_model (Sample.instance RowClass ∅ {[ "breakpoints" := VList ["sm"; "lg"] ]}) 4
       = Ok obj'
    /\ length (children obj') = Z.to_nat 4
    /\ Forall (fun child =>
                 child.2 !! ("sm" +:+ "-column-width")
                 = Some (VStr ("col-" +:+ "sm" +:+ "-" +:+ Py.str w))
                 /\ width_units child.2 "sm" = Some w) (children obj')
    /\ children_units obj' "sm" = Some 12%Z.
Proof.
  exact (row_widths_fill_grid
           (Sample.instance RowClass ∅ {[ "breakpoints" := VList ["sm"; "lg"] ]})
           4 "sm" ["lg"]
           ltac:(refine (bool_decide_unpack _ _); vm_compute; exact I) eq_refl eq_refl).
Defined.
